(** * BPMN schema: entity model, containers, lookup and validation

    A shallow embedding of the [bpmn_schema] package: the element classes
    of [core/], the [Process] and [BPMNDiagram] containers of
    [core/processes.py] and the rule engine of [validation/validators.py].

    Conventions of the embedding.
    - One module per Python class; the record of the class is [t], its
      methods keep their Python names.
    - A method that mutates [self] returns the new [self]; a method that can
      raise returns an [Outcome] next to it.
    - A field annotated with an enumeration is a member of that
      enumeration in the records: the kind the field stands for. The
      classes set [use_enum_values], so what Python stores for a kind that
      was given to the constructor or assigned is the value of the member,
      a plain [str]; only a class default stays a member. Comparing with
      [==] gives the same answer on both, reading [.value] does not.
    - [Optional[str]] is [option string].
    - The visual metadata ([position], [dimensions], [waypoints]) and the
      open [properties] bag are not read by any lookup or rule and are left
      out of the records. *)

From Stdlib Require Import List String Bool Arith ZArith Lia Permutation DecimalString.
Import ListNotations.
Local Open Scope string_scope.
Local Open Scope list_scope.

Set Implicit Arguments.
Set Warnings "-register-all".

(** ** Python exceptions and results *)

Inductive PyException :=
| ValueError (msg : string)
| AttributeError (msg : string)
| NotImplementedError.

Inductive Outcome (A : Type) :=
| Returned (a : A)
| Raised (e : PyException).
Arguments Returned {A} a.
Arguments Raised {A} e.

(** [str(n)] for a non-negative integer, as an f-string prints it. *)
Definition str_of_nat (n : nat) : string :=
  NilEmpty.string_of_uint (Nat.to_uint n).

(** ** Python lists and dicts *)

(** [s in l] for a list of strings. *)
Definition str_in (s : string) (l : list string) : bool :=
  existsb (String.eqb s) l.

(** [l.remove(s)]: the first item equal to [s] is dropped. The callers
    check [s in l] first, so the [ValueError] of an absent item is never
    reached; on such a list the model returns the list as it is. *)
Fixpoint list_remove (s : string) (l : list string) : list string :=
  match l with
  | [] => []
  | x :: rest => if String.eqb x s then rest else x :: list_remove s rest
  end.

(** A [dict] from strings to counts, as the list of its items in
    insertion order. *)
Module PyDict.
Definition t : Type := list (string * nat).

(** [d.get(k)] *)
Fixpoint get (d : t) (k : string) : option nat :=
  match d with
  | [] => None
  | (k', v) :: rest => if String.eqb k' k then Some v else get rest k
  end.

(** [d.get(k, default)] *)
Definition get_default (d : t) (k : string) (default : nat) : nat :=
  match get d k with Some v => v | None => default end.

(** [d[k] = v]: the item keeps its place when the key is there, and goes
    to the end when it is new. *)
Fixpoint set (d : t) (k : string) (v : nat) : t :=
  match d with
  | [] => [(k, v)]
  | (k', v') :: rest =>
      if String.eqb k' k then (k', v) :: rest else (k', v') :: set rest k v
  end.

(** [d.update(other)] *)
Definition update (d other : t) : t :=
  fold_left (fun acc kv => set acc (fst kv) (snd kv)) other d.

(** [d.values()] and [d.keys()] *)
Definition values (d : t) : list nat := map snd d.
Definition keys (d : t) : list string := map fst d.
End PyDict.

(** ** core/base.py *)

Inductive BPMNElementType :=
| PROCESS | TASK | EVENT | GATEWAY | SUBPROCESS | CALL_ACTIVITY
| SEQUENCE_FLOW | MESSAGE_FLOW | ASSOCIATION
| POOL | LANE
| DATA_OBJECT | DATA_STORE | GROUP | TEXT_ANNOTATION.

Module BPMNElement.
Record t := mk {
  id : string;
  name : option string;
  element_type : BPMNElementType;
  documentation : option string
}.

(** The keyword arguments every subclass forwards to the base class. *)
Definition init (ty : BPMNElementType) (i : string) : t :=
  {| id := i; name := None; element_type := ty; documentation := None |}.
End BPMNElement.

(** ** core/events.py *)

Inductive EventType := START | INTERMEDIATE | BOUNDARY | END.

Inductive EventDefinition :=
| ED_NONE | ED_MESSAGE | ED_TIMER | ED_ERROR | ED_ESCALATION | ED_CANCEL
| ED_COMPENSATION | ED_CONDITIONAL | ED_LINK | ED_SIGNAL | ED_TERMINATE
| ED_MULTIPLE | ED_PARALLEL_MULTIPLE.

Definition EventType_eqb (a b : EventType) : bool :=
  match a, b with
  | START, START | INTERMEDIATE, INTERMEDIATE
  | BOUNDARY, BOUNDARY | END, END => true
  | _, _ => false
  end.

Definition EventDefinition_eqb (a b : EventDefinition) : bool :=
  match a, b with
  | ED_NONE, ED_NONE | ED_MESSAGE, ED_MESSAGE | ED_TIMER, ED_TIMER
  | ED_ERROR, ED_ERROR | ED_ESCALATION, ED_ESCALATION | ED_CANCEL, ED_CANCEL
  | ED_COMPENSATION, ED_COMPENSATION | ED_CONDITIONAL, ED_CONDITIONAL
  | ED_LINK, ED_LINK | ED_SIGNAL, ED_SIGNAL | ED_TERMINATE, ED_TERMINATE
  | ED_MULTIPLE, ED_MULTIPLE
  | ED_PARALLEL_MULTIPLE, ED_PARALLEL_MULTIPLE => true
  | _, _ => false
  end.

Module Event.
Record t := mk {
  base : BPMNElement.t;
  event_type : EventType;
  event_definition : EventDefinition;
  is_interrupting : bool;
  is_throwing : bool;
  trigger : option string;
  attached_to_ref : option string;
  cancel_activity : bool
}.

Definition id (self : t) : string := BPMNElement.id (base self).

(** [Event(id=i, event_type=ty)], every other field at its default. *)
Definition init (i : string) (ty : EventType) : t :=
  {| base := BPMNElement.init EVENT i;
     event_type := ty;
     event_definition := ED_NONE;
     is_interrupting := true;
     is_throwing := false;
     trigger := None;
     attached_to_ref := None;
     cancel_activity := true |}.

Definition is_start_event (self : t) : bool :=
  EventType_eqb (event_type self) START.

Definition is_end_event (self : t) : bool :=
  EventType_eqb (event_type self) END.

Definition is_intermediate_event (self : t) : bool :=
  EventType_eqb (event_type self) INTERMEDIATE.

Definition is_boundary_event (self : t) : bool :=
  EventType_eqb (event_type self) BOUNDARY.

(** [attach_to_activity(activity_id, interrupting=True)]: the three
    assignments of the method body. *)
Definition attach_to_activity
    (self : t) (activity_id : string) (interrupting : bool) : t :=
  {| base := base self;
     event_type := BOUNDARY;
     event_definition := event_definition self;
     is_interrupting := interrupting;
     is_throwing := is_throwing self;
     trigger := trigger self;
     attached_to_ref := Some activity_id;
     cancel_activity := cancel_activity self |}.

(** The default value of the [interrupting] parameter. *)
Definition attach_to_activity_default_interrupting : bool := true.

Definition is_catching_event (self : t) : bool := negb (is_throwing self).

Definition is_throwing_event (self : t) : bool := is_throwing self.

Definition has_trigger (self : t) : bool :=
  negb (EventDefinition_eqb (event_definition self) ED_NONE).

Definition is_timer_event (self : t) : bool :=
  EventDefinition_eqb (event_definition self) ED_TIMER.

Definition is_message_event (self : t) : bool :=
  EventDefinition_eqb (event_definition self) ED_MESSAGE.

Definition is_error_event (self : t) : bool :=
  EventDefinition_eqb (event_definition self) ED_ERROR.

Definition is_signal_event (self : t) : bool :=
  EventDefinition_eqb (event_definition self) ED_SIGNAL.

(** The two assignments the four trigger setters share:
    [self.event_definition = definition; self.trigger = payload]. *)
Definition configure_trigger
    (definition : EventDefinition) (self : t) (payload : string) : t :=
  {| base := base self;
     event_type := event_type self;
     event_definition := definition;
     is_interrupting := is_interrupting self;
     is_throwing := is_throwing self;
     trigger := Some payload;
     attached_to_ref := attached_to_ref self;
     cancel_activity := cancel_activity self |}.

Definition set_timer_trigger (self : t) (timer_expression : string) : t :=
  configure_trigger ED_TIMER self timer_expression.

Definition set_message_trigger (self : t) (message_ref : string) : t :=
  configure_trigger ED_MESSAGE self message_ref.

Definition set_error_trigger (self : t) (error_code : string) : t :=
  configure_trigger ED_ERROR self error_code.

Definition set_signal_trigger (self : t) (signal_ref : string) : t :=
  configure_trigger ED_SIGNAL self signal_ref.
End Event.

(** ** core/flows.py *)

Module SequenceFlow.
Record t := mk {
  base : BPMNElement.t;
  source_ref : string;
  target_ref : string;
  condition_expression : option string;
  is_immediate : bool
}.

Definition id (self : t) : string := BPMNElement.id (base self).

Definition init (i src tgt : string) : t :=
  {| base := BPMNElement.init SEQUENCE_FLOW i;
     source_ref := src;
     target_ref := tgt;
     condition_expression := None;
     is_immediate := false |}.
End SequenceFlow.

Module MessageFlow.
Record t := mk {
  base : BPMNElement.t;
  source_ref : string;
  target_ref : string;
  message_ref : option string
}.

Definition id (self : t) : string := BPMNElement.id (base self).

Definition init (i src tgt : string) : t :=
  {| base := BPMNElement.init MESSAGE_FLOW i;
     source_ref := src;
     target_ref := tgt;
     message_ref := None |}.
End MessageFlow.

Inductive AssociationDirection := AD_none | AD_one | AD_both.

Module Association.
Record t := mk {
  base : BPMNElement.t;
  source_ref : string;
  target_ref : string;
  association_direction : AssociationDirection
}.

Definition id (self : t) : string := BPMNElement.id (base self).
End Association.

(** ** core/activities.py *)

Inductive TaskType :=
| TT_TASK | USER_TASK | SERVICE_TASK | MANUAL_TASK | SCRIPT_TASK
| BUSINESS_RULE_TASK | SEND_TASK | RECEIVE_TASK.

Inductive SubProcessType :=
| EMBEDDED | SP_EVENT | SP_CALL_ACTIVITY | TRANSACTION | SP_AD_HOC.

Inductive ActivityMarker :=
| LOOP | PARALLEL_MULTI_INSTANCE | SEQUENTIAL_MULTI_INSTANCE
| COMPENSATION | AD_HOC.

Definition ActivityMarker_eqb (a b : ActivityMarker) : bool :=
  match a, b with
  | LOOP, LOOP
  | PARALLEL_MULTI_INSTANCE, PARALLEL_MULTI_INSTANCE
  | SEQUENTIAL_MULTI_INSTANCE, SEQUENTIAL_MULTI_INSTANCE
  | COMPENSATION, COMPENSATION
  | AD_HOC, AD_HOC => true
  | _, _ => false
  end.

Module Task.
Record t := mk {
  base : BPMNElement.t;
  task_type : TaskType;
  markers : list ActivityMarker;
  assignee : option string;
  candidate_groups : list string;
  candidate_users : list string;
  priority : option Z;
  form_key : option string;
  implementation : option string;
  operation_ref : option string;
  script : option string;
  script_format : option string;
  message_ref : option string;
  operation : option string;
  instantiate : bool;
  rule_implementation : option string;
  decision_ref : option string;
  is_sequential : bool;
  loop_cardinality : option string;
  completion_condition : option string;
  collection : option string;
  element_variable : option string
}.

Definition id (self : t) : string := BPMNElement.id (base self).

Definition init (i : string) : t :=
  {| base := BPMNElement.init TASK i;
     task_type := TT_TASK;
     markers := [];
     assignee := None;
     candidate_groups := [];
     candidate_users := [];
     priority := None;
     form_key := None;
     implementation := None;
     operation_ref := None;
     script := None;
     script_format := None;
     message_ref := None;
     operation := None;
     instantiate := false;
     rule_implementation := None;
     decision_ref := None;
     is_sequential := false;
     loop_cardinality := None;
     completion_condition := None;
     collection := None;
     element_variable := None |}.

(** [m in self.markers] *)
Definition has_marker (m : ActivityMarker) (self : t) : bool :=
  existsb (ActivityMarker_eqb m) (markers self).

Definition is_parallel_multi_instance (self : t) : bool :=
  has_marker PARALLEL_MULTI_INSTANCE self.

Definition is_sequential_multi_instance (self : t) : bool :=
  has_marker SEQUENTIAL_MULTI_INSTANCE self.

Definition is_multi_instance (self : t) : bool :=
  has_marker PARALLEL_MULTI_INSTANCE self
  || has_marker SEQUENTIAL_MULTI_INSTANCE self.

(** The four statements shared by the two multi-instance setters:
    [self.markers.append(m)], then the three assignments. *)
Definition configure_multi_instance
    (m : ActivityMarker) (seq : bool)
    (self : t) (coll el_var : string) : t :=
  {| base := base self;
     task_type := task_type self;
     markers := markers self ++ [m];
     assignee := assignee self;
     candidate_groups := candidate_groups self;
     candidate_users := candidate_users self;
     priority := priority self;
     form_key := form_key self;
     implementation := implementation self;
     operation_ref := operation_ref self;
     script := script self;
     script_format := script_format self;
     message_ref := message_ref self;
     operation := operation self;
     instantiate := instantiate self;
     rule_implementation := rule_implementation self;
     decision_ref := decision_ref self;
     is_sequential := seq;
     loop_cardinality := loop_cardinality self;
     completion_condition := completion_condition self;
     collection := Some coll;
     element_variable := Some el_var |}.

Definition set_multi_instance_parallel
    (self : t) (coll el_var : string) : t :=
  configure_multi_instance PARALLEL_MULTI_INSTANCE false self coll el_var.

Definition set_multi_instance_sequential
    (self : t) (coll el_var : string) : t :=
  configure_multi_instance SEQUENTIAL_MULTI_INSTANCE true self coll el_var.

(** The two candidate lists replaced, every other field kept. *)
Definition with_candidates (self : t) (groups users : list string) : t :=
  {| base := base self;
     task_type := task_type self;
     markers := markers self;
     assignee := assignee self;
     candidate_groups := groups;
     candidate_users := users;
     priority := priority self;
     form_key := form_key self;
     implementation := implementation self;
     operation_ref := operation_ref self;
     script := script self;
     script_format := script_format self;
     message_ref := message_ref self;
     operation := operation self;
     instantiate := instantiate self;
     rule_implementation := rule_implementation self;
     decision_ref := decision_ref self;
     is_sequential := is_sequential self;
     loop_cardinality := loop_cardinality self;
     completion_condition := completion_condition self;
     collection := collection self;
     element_variable := element_variable self |}.

Definition add_candidate_group (self : t) (group_id : string) : t :=
  if negb (str_in group_id (candidate_groups self))
  then with_candidates self (candidate_groups self ++ [group_id])
                       (candidate_users self)
  else self.

Definition add_candidate_user (self : t) (user_id : string) : t :=
  if negb (str_in user_id (candidate_users self))
  then with_candidates self (candidate_groups self)
                       (candidate_users self ++ [user_id])
  else self.
End Task.

Inductive CalledElementType := CE_process | CE_global_task.
Inductive AdHocOrdering := AO_parallel | AO_sequential.

Module SubProcess.
(** The scalar fields of the class. *)
Record attrs := mk_attrs {
  base : BPMNElement.t;
  subprocess_type : SubProcessType;
  is_expanded : bool;
  triggered_by_event : bool;
  is_for_compensation : bool;
  markers : list ActivityMarker;
  called_element : option string;
  called_element_type : option CalledElementType;
  method : option string;
  ordering : option AdHocOrdering;
  cancel_remaining_instances : bool
}.

(** A sub-process is itself a container:
    [elements : List[Union[Task, Event, SubProcess]]],
    [sequence_flows] and [boundary_events]. *)
Inductive t :=
| mk (a : attrs)
     (elements : list child)
     (sequence_flows : list SequenceFlow.t)
     (boundary_events : list Event.t)
with child :=
| OfTask (x : Task.t)
| OfEvent (x : Event.t)
| OfSubProcess (x : t).

Definition attributes (self : t) : attrs :=
  match self with mk a _ _ _ => a end.
Definition elements (self : t) : list child :=
  match self with mk _ el _ _ => el end.
Definition sequence_flows (self : t) : list SequenceFlow.t :=
  match self with mk _ _ sf _ => sf end.
Definition boundary_events (self : t) : list Event.t :=
  match self with mk _ _ _ be => be end.

Definition id (self : t) : string :=
  BPMNElement.id (base (attributes self)).

(** [__init__]: the element type follows the sub-process type. *)
Definition init (i : string) (ty : SubProcessType) : t :=
  mk {| base := BPMNElement.init
                  (match ty with
                   | SP_CALL_ACTIVITY => CALL_ACTIVITY
                   | _ => SUBPROCESS
                   end) i;
        subprocess_type := ty;
        is_expanded := true;
        triggered_by_event := false;
        is_for_compensation := false;
        markers := [];
        called_element := None;
        called_element_type := None;
        method := None;
        ordering := None;
        cancel_remaining_instances := true |}
     [] [] [].

Definition add_element (self : t) (element : child) : t :=
  mk (attributes self) (elements self ++ [element])
     (sequence_flows self) (boundary_events self).

Definition add_sequence_flow (self : t) (flow : SequenceFlow.t) : t :=
  mk (attributes self) (elements self)
     (sequence_flows self ++ [flow]) (boundary_events self).

(** [add_boundary_event(event)] mutates two objects: the event (through
    [event.attach_to_activity(self.id)], so with the default
    [interrupting]) and the sub-process, whose list then holds that same
    event object. Both are returned: the sub-process, then the event as
    the caller sees it afterwards. *)
Definition add_boundary_event (self : t) (event : Event.t) : t * Event.t :=
  let event' :=
    Event.attach_to_activity event (id self)
      Event.attach_to_activity_default_interrupting in
  (mk (attributes self) (elements self) (sequence_flows self)
      (boundary_events self ++ [event']),
   event').

Definition get_all_elements (self : t) : list child := elements self.

Definition child_id (c : child) : string :=
  match c with
  | OfTask x => Task.id x
  | OfEvent x => Event.id x
  | OfSubProcess x => id x
  end.
End SubProcess.

(** ** core/gateways.py *)

Inductive GatewayType :=
| EXCLUSIVE | INCLUSIVE | PARALLEL | COMPLEX
| EVENT_BASED | EXCLUSIVE_EVENT_BASED | PARALLEL_EVENT_BASED.

(** [GatewayType.X.value] *)
Definition GatewayType_value (g : GatewayType) : string :=
  match g with
  | EXCLUSIVE => "exclusive"
  | INCLUSIVE => "inclusive"
  | PARALLEL => "parallel"
  | COMPLEX => "complex"
  | EVENT_BASED => "event_based"
  | EXCLUSIVE_EVENT_BASED => "exclusive_event_based"
  | PARALLEL_EVENT_BASED => "parallel_event_based"
  end.

Definition GatewayType_eqb (a b : GatewayType) : bool :=
  String.eqb (GatewayType_value a) (GatewayType_value b).

Inductive GatewayDirection := unspecified | converging | diverging | mixed.

Definition GatewayDirection_eqb (a b : GatewayDirection) : bool :=
  match a, b with
  | unspecified, unspecified | converging, converging
  | diverging, diverging | mixed, mixed => true
  | _, _ => false
  end.

Inductive EventGatewayType := EG_exclusive | EG_parallel.

Module Gateway.
Record t := mk {
  base : BPMNElement.t;
  gateway_type : GatewayType;
  gateway_direction : GatewayDirection;
  default_flow : option string;
  instantiate : bool;
  event_gateway_type : option EventGatewayType
}.

Definition id (self : t) : string := BPMNElement.id (base self).

Definition init (i : string) (ty : GatewayType) (dir : GatewayDirection) : t :=
  {| base := BPMNElement.init GATEWAY i;
     gateway_type := ty;
     gateway_direction := dir;
     default_flow := None;
     instantiate := false;
     event_gateway_type := None |}.

Definition is_exclusive (self : t) : bool :=
  GatewayType_eqb (gateway_type self) EXCLUSIVE.

Definition is_inclusive (self : t) : bool :=
  GatewayType_eqb (gateway_type self) INCLUSIVE.

Definition is_parallel (self : t) : bool :=
  GatewayType_eqb (gateway_type self) PARALLEL.

Definition is_complex (self : t) : bool :=
  GatewayType_eqb (gateway_type self) COMPLEX.

Definition is_event_based (self : t) : bool :=
  existsb (GatewayType_eqb (gateway_type self))
    [EVENT_BASED; EXCLUSIVE_EVENT_BASED; PARALLEL_EVENT_BASED].

Definition is_diverging (self : t) : bool :=
  GatewayDirection_eqb (gateway_direction self) diverging.

Definition is_converging (self : t) : bool :=
  GatewayDirection_eqb (gateway_direction self) converging.

Definition is_mixed (self : t) : bool :=
  GatewayDirection_eqb (gateway_direction self) mixed.

Definition with_default_flow (self : t) (v : option string) : t :=
  {| base := base self;
     gateway_type := gateway_type self;
     gateway_direction := gateway_direction self;
     default_flow := v;
     instantiate := instantiate self;
     event_gateway_type := event_gateway_type self |}.

Definition with_instantiate (self : t) (v : bool) : t :=
  {| base := base self;
     gateway_type := gateway_type self;
     gateway_direction := gateway_direction self;
     default_flow := default_flow self;
     instantiate := v;
     event_gateway_type := event_gateway_type self |}.

(** What reading [.value] of a stored kind raises: the stored object is
    a [str]. *)
Definition str_has_no_value : PyException :=
  AttributeError "'str' object has no attribute 'value'".

(** [set_default_flow(flow_id)]: what the call raises or returns, and
    the gateway after the call. In the [else] branch the kind is not
    exclusive, so it is not the class default: it was given or assigned,
    and the field holds its value as a [str]. The [raise] statement first
    evaluates its f-string, whose [self.gateway_type.value] raises
    [AttributeError]; the [ValueError] is never built. *)
Definition set_default_flow (self : t) (flow_id : string)
  : Outcome unit * t :=
  if is_exclusive self || is_inclusive self
  then (Returned tt, with_default_flow self (Some flow_id))
  else (Raised str_has_no_value, self).

Definition enable_process_instantiation (self : t) : Outcome unit * t :=
  if is_event_based self
  then (Returned tt, with_instantiate self true)
  else (Raised (ValueError
          "Process instantiation only supported for event-based gateways"),
        self).

Definition with_direction (self : t) (v : GatewayDirection) : t :=
  {| base := base self;
     gateway_type := gateway_type self;
     gateway_direction := v;
     default_flow := default_flow self;
     instantiate := instantiate self;
     event_gateway_type := event_gateway_type self |}.

Definition set_as_diverging (self : t) : t := with_direction self diverging.

Definition set_as_converging (self : t) : t := with_direction self converging.

Definition set_as_mixed (self : t) : t := with_direction self mixed.
End Gateway.

(** ** core/swimlanes.py *)

Module Lane.
Inductive t :=
| mk (base : BPMNElement.t)
     (flow_node_refs : list string)
     (child_lanes : list t)
     (partition_element_ref : option string).

Definition base (self : t) : BPMNElement.t :=
  match self with mk b _ _ _ => b end.
Definition flow_node_refs (self : t) : list string :=
  match self with mk _ r _ _ => r end.
Definition child_lanes (self : t) : list t :=
  match self with mk _ _ c _ => c end.
Definition partition_element_ref (self : t) : option string :=
  match self with mk _ _ _ p => p end.

Definition id (self : t) : string := BPMNElement.id (base self).

Definition init (i : string) : t :=
  mk (BPMNElement.init LANE i) [] [] None.

Definition add_child_lane (self lane : t) : t :=
  mk (base self) (flow_node_refs self) (child_lanes self ++ [lane])
     (partition_element_ref self).

Definition add_flow_node (self : t) (node_id : string) : t :=
  if negb (str_in node_id (flow_node_refs self))
  then mk (base self) (flow_node_refs self ++ [node_id]) (child_lanes self)
          (partition_element_ref self)
  else self.

Definition remove_flow_node (self : t) (node_id : string) : t :=
  if str_in node_id (flow_node_refs self)
  then mk (base self) (list_remove node_id (flow_node_refs self))
          (child_lanes self) (partition_element_ref self)
  else self.

Definition has_child_lanes (self : t) : bool :=
  (0 <? List.length (child_lanes self))%nat.

Definition has_flow_nodes (self : t) : bool :=
  (0 <? List.length (flow_node_refs self))%nat.

(** [get_all_flow_nodes()]: a copy of the lane's own references, extended
    by what each child lane returns, in order. *)
Fixpoint get_all_flow_nodes (self : t) : list string :=
  match self with
  | mk _ refs children _ =>
      refs ++ (fix extend (cs : list t) : list string :=
                 match cs with
                 | [] => []
                 | child_lane :: rest =>
                     get_all_flow_nodes child_lane ++ extend rest
                 end) children
  end.
End Lane.

Module Pool.
Record t := mk {
  base : BPMNElement.t;
  is_executable : bool;
  process_ref : option string;
  lanes : list Lane.t;
  participant_multiplicity : option Z;
  is_horizontal : bool
}.

Definition id (self : t) : string := BPMNElement.id (base self).

Definition init (i : string) (ls : list Lane.t) : t :=
  {| base := BPMNElement.init POOL i;
     is_executable := false;
     process_ref := None;
     lanes := ls;
     participant_multiplicity := None;
     is_horizontal := true |}.
End Pool.

(** ** core/artifacts.py *)

Module DataObject.
Record t := mk {
  base : BPMNElement.t;
  is_collection : bool;
  item_subject_ref : option string;
  state : option string
}.
Definition id (self : t) : string := BPMNElement.id (base self).
End DataObject.

Module DataStore.
Record t := mk {
  base : BPMNElement.t;
  capacity : option Z;
  is_unlimited : bool;
  item_subject_ref : option string
}.
Definition id (self : t) : string := BPMNElement.id (base self).

Definition init (i : string) : t :=
  {| base := BPMNElement.init DATA_STORE i;
     capacity := None;
     is_unlimited := true;
     item_subject_ref := None |}.

Definition set_capacity (self : t) (c : Z) : t :=
  {| base := base self;
     capacity := Some c;
     is_unlimited := false;
     item_subject_ref := item_subject_ref self |}.

Definition set_unlimited_capacity (self : t) : t :=
  {| base := base self;
     capacity := None;
     is_unlimited := true;
     item_subject_ref := item_subject_ref self |}.

Definition has_capacity_limit (self : t) : bool :=
  negb (is_unlimited self)
  && match capacity self with Some _ => true | None => false end.
End DataStore.

Module Group.
Record t := mk {
  base : BPMNElement.t;
  category_value_ref : option string
}.
Definition id (self : t) : string := BPMNElement.id (base self).
End Group.

Module TextAnnotation.
Record t := mk {
  base : BPMNElement.t;
  text : string;
  text_format : string
}.
Definition id (self : t) : string := BPMNElement.id (base self).
End TextAnnotation.

(** ** core/processes.py *)

(** What a list of [BPMNElement] can hold: one constructor per concrete
    subclass ([isinstance] is a match on it). *)
Inductive Element :=
| AnEvent (x : Event.t)
| ATask (x : Task.t)
| AGateway (x : Gateway.t)
| ASubProcess (x : SubProcess.t)
| ASequenceFlow (x : SequenceFlow.t)
| AnAssociation (x : Association.t)
| ADataObject (x : DataObject.t)
| ADataStore (x : DataStore.t)
| AGroup (x : Group.t)
| ATextAnnotation (x : TextAnnotation.t)
| ALane (x : Lane.t)
| APool (x : Pool.t)
| AMessageFlow (x : MessageFlow.t).

(** [element.id] *)
Definition Element_id (e : Element) : string :=
  match e with
  | AnEvent x => Event.id x
  | ATask x => Task.id x
  | AGateway x => Gateway.id x
  | ASubProcess x => SubProcess.id x
  | ASequenceFlow x => SequenceFlow.id x
  | AnAssociation x => Association.id x
  | ADataObject x => DataObject.id x
  | ADataStore x => DataStore.id x
  | AGroup x => Group.id x
  | ATextAnnotation x => TextAnnotation.id x
  | ALane x => Lane.id x
  | APool x => Pool.id x
  | AMessageFlow x => MessageFlow.id x
  end.

(** [Union[Task, Event, Gateway, SubProcess]] *)
Inductive FlowObject :=
| FEvent (x : Event.t)
| FTask (x : Task.t)
| FGateway (x : Gateway.t)
| FSubProcess (x : SubProcess.t).

Definition FlowObject_id (o : FlowObject) : string :=
  match o with
  | FEvent x => Event.id x
  | FTask x => Task.id x
  | FGateway x => Gateway.id x
  | FSubProcess x => SubProcess.id x
  end.

(** [str(type(element))], as the f-strings of the insertion errors print
    it. *)
Definition Element_type_str (e : Element) : string :=
  match e with
  | AnEvent _ => "<class 'bpmn_schema.core.events.Event'>"
  | ATask _ => "<class 'bpmn_schema.core.activities.Task'>"
  | AGateway _ => "<class 'bpmn_schema.core.gateways.Gateway'>"
  | ASubProcess _ => "<class 'bpmn_schema.core.activities.SubProcess'>"
  | ASequenceFlow _ => "<class 'bpmn_schema.core.flows.SequenceFlow'>"
  | AnAssociation _ => "<class 'bpmn_schema.core.flows.Association'>"
  | ADataObject _ => "<class 'bpmn_schema.core.artifacts.DataObject'>"
  | ADataStore _ => "<class 'bpmn_schema.core.artifacts.DataStore'>"
  | AGroup _ => "<class 'bpmn_schema.core.artifacts.Group'>"
  | ATextAnnotation _ => "<class 'bpmn_schema.core.artifacts.TextAnnotation'>"
  | ALane _ => "<class 'bpmn_schema.core.swimlanes.Lane'>"
  | APool _ => "<class 'bpmn_schema.core.swimlanes.Pool'>"
  | AMessageFlow _ => "<class 'bpmn_schema.core.flows.MessageFlow'>"
  end.

Inductive ProcessType := PT_none | PT_public | PT_private.

Module Process.
Record t := mk {
  base : BPMNElement.t;
  is_executable : bool;
  is_closed : bool;
  process_type : ProcessType;
  definitional_collaboration_ref : option string;
  events : list Event.t;
  tasks : list Task.t;
  gateways : list Gateway.t;
  subprocesses : list SubProcess.t;
  sequence_flows : list SequenceFlow.t;
  associations : list Association.t;
  data_objects : list DataObject.t;
  data_stores : list DataStore.t;
  groups : list Group.t;
  text_annotations : list TextAnnotation.t;
  lanes : list Lane.t
}.

Definition id (self : t) : string := BPMNElement.id (base self).

(** [Process(id=i)] followed by the insertions that fill the four
    flow-object lists and the sequence flows. *)
Definition init (i : string)
    (ev : list Event.t) (ta : list Task.t) (ga : list Gateway.t)
    (su : list SubProcess.t) (sf : list SequenceFlow.t) : t :=
  {| base := BPMNElement.init PROCESS i;
     is_executable := false;
     is_closed := false;
     process_type := PT_none;
     definitional_collaboration_ref := None;
     events := ev;
     tasks := ta;
     gateways := ga;
     subprocesses := su;
     sequence_flows := sf;
     associations := [];
     data_objects := [];
     data_stores := [];
     groups := [];
     text_annotations := [];
     lanes := [] |}.

Definition get_all_elements (self : t) : list Element :=
  map AnEvent (events self) ++ map ATask (tasks self)
  ++ map AGateway (gateways self) ++ map ASubProcess (subprocesses self)
  ++ map ASequenceFlow (sequence_flows self)
  ++ map AnAssociation (associations self)
  ++ map ADataObject (data_objects self)
  ++ map ADataStore (data_stores self)
  ++ map AGroup (groups self)
  ++ map ATextAnnotation (text_annotations self)
  ++ map ALane (lanes self).

Definition get_all_flow_objects (self : t) : list FlowObject :=
  map FEvent (events self) ++ map FTask (tasks self)
  ++ map FGateway (gateways self) ++ map FSubProcess (subprocesses self).

(** The [for] loop of [get_element_by_id]: return at the first match,
    [None] when the list is exhausted. *)
Fixpoint scan (elements : list Element) (element_id : string)
  : option Element :=
  match elements with
  | [] => None
  | element :: rest =>
      if String.eqb (Element_id element) element_id
      then Some element
      else scan rest element_id
  end.

Definition get_element_by_id (self : t) (element_id : string)
  : option Element :=
  scan (get_all_elements self) element_id.

Definition get_start_events (self : t) : list Event.t :=
  filter Event.is_start_event (events self).

Definition get_end_events (self : t) : list Event.t :=
  filter Event.is_end_event (events self).

(** The eleven collections replaced, the scalar fields kept. *)
Definition with_collections (self : t)
    (ev : list Event.t) (ta : list Task.t) (ga : list Gateway.t)
    (su : list SubProcess.t) (sf : list SequenceFlow.t)
    (asn : list Association.t) (dob : list DataObject.t)
    (dst : list DataStore.t) (gr : list Group.t)
    (tx : list TextAnnotation.t) (ln : list Lane.t) : t :=
  {| base := base self;
     is_executable := is_executable self;
     is_closed := is_closed self;
     process_type := process_type self;
     definitional_collaboration_ref := definitional_collaboration_ref self;
     events := ev;
     tasks := ta;
     gateways := ga;
     subprocesses := su;
     sequence_flows := sf;
     associations := asn;
     data_objects := dob;
     data_stores := dst;
     groups := gr;
     text_annotations := tx;
     lanes := ln |}.

(** [add_flow_object(element)]: the [isinstance] chain, with the
    [ValueError] of its [else]. The argument is any element object. *)
Definition add_flow_object (self : t) (element : Element)
  : Outcome unit * t :=
  match element with
  | ATask x =>
      (Returned tt,
       with_collections self (events self) (tasks self ++ [x])
         (gateways self) (subprocesses self) (sequence_flows self)
         (associations self) (data_objects self) (data_stores self)
         (groups self) (text_annotations self) (lanes self))
  | AnEvent x =>
      (Returned tt,
       with_collections self (events self ++ [x]) (tasks self)
         (gateways self) (subprocesses self) (sequence_flows self)
         (associations self) (data_objects self) (data_stores self)
         (groups self) (text_annotations self) (lanes self))
  | AGateway x =>
      (Returned tt,
       with_collections self (events self) (tasks self)
         (gateways self ++ [x]) (subprocesses self) (sequence_flows self)
         (associations self) (data_objects self) (data_stores self)
         (groups self) (text_annotations self) (lanes self))
  | ASubProcess x =>
      (Returned tt,
       with_collections self (events self) (tasks self)
         (gateways self) (subprocesses self ++ [x]) (sequence_flows self)
         (associations self) (data_objects self) (data_stores self)
         (groups self) (text_annotations self) (lanes self))
  | _ =>
      (Raised (ValueError
         ("Invalid flow object type: " ++ Element_type_str element)),
       self)
  end.

Definition add_connecting_object (self : t) (flow : Element)
  : Outcome unit * t :=
  match flow with
  | ASequenceFlow x =>
      (Returned tt,
       with_collections self (events self) (tasks self)
         (gateways self) (subprocesses self) (sequence_flows self ++ [x])
         (associations self) (data_objects self) (data_stores self)
         (groups self) (text_annotations self) (lanes self))
  | AnAssociation x =>
      (Returned tt,
       with_collections self (events self) (tasks self)
         (gateways self) (subprocesses self) (sequence_flows self)
         (associations self ++ [x]) (data_objects self) (data_stores self)
         (groups self) (text_annotations self) (lanes self))
  | _ =>
      (Raised (ValueError
         ("Invalid connecting object type: " ++ Element_type_str flow)),
       self)
  end.

Definition add_artifact (self : t) (artifact : Element)
  : Outcome unit * t :=
  match artifact with
  | ADataObject x =>
      (Returned tt,
       with_collections self (events self) (tasks self)
         (gateways self) (subprocesses self) (sequence_flows self)
         (associations self) (data_objects self ++ [x]) (data_stores self)
         (groups self) (text_annotations self) (lanes self))
  | ADataStore x =>
      (Returned tt,
       with_collections self (events self) (tasks self)
         (gateways self) (subprocesses self) (sequence_flows self)
         (associations self) (data_objects self) (data_stores self ++ [x])
         (groups self) (text_annotations self) (lanes self))
  | AGroup x =>
      (Returned tt,
       with_collections self (events self) (tasks self)
         (gateways self) (subprocesses self) (sequence_flows self)
         (associations self) (data_objects self) (data_stores self)
         (groups self ++ [x]) (text_annotations self) (lanes self))
  | ATextAnnotation x =>
      (Returned tt,
       with_collections self (events self) (tasks self)
         (gateways self) (subprocesses self) (sequence_flows self)
         (associations self) (data_objects self) (data_stores self)
         (groups self) (text_annotations self ++ [x]) (lanes self))
  | _ =>
      (Raised (ValueError
         ("Invalid artifact type: " ++ Element_type_str artifact)),
       self)
  end.

Definition add_lane (self : t) (lane : Lane.t) : t :=
  with_collections self (events self) (tasks self)
    (gateways self) (subprocesses self) (sequence_flows self)
    (associations self) (data_objects self) (data_stores self)
    (groups self) (text_annotations self) (lanes self ++ [lane]).

(** [count_elements()]: the dict literal, keys in source order. *)
Definition count_elements (self : t) : PyDict.t :=
  [("events", List.length (events self));
   ("tasks", List.length (tasks self));
   ("gateways", List.length (gateways self));
   ("subprocesses", List.length (subprocesses self));
   ("sequence_flows", List.length (sequence_flows self));
   ("associations", List.length (associations self));
   ("data_objects", List.length (data_objects self));
   ("data_stores", List.length (data_stores self));
   ("groups", List.length (groups self));
   ("text_annotations", List.length (text_annotations self));
   ("lanes", List.length (lanes self))].

(** [sum(counts.values())], the total [__str__] prints. *)
Definition total_elements (self : t) : nat :=
  list_sum (PyDict.values (count_elements self)).
End Process.

Module BPMNDiagram.
Record t := mk {
  id : string;
  name : option string;
  target_namespace : string;
  processes : list Process.t;
  pools : list Pool.t;
  message_flows : list MessageFlow.t;
  global_data_stores : list DataStore.t;
  global_text_annotations : list TextAnnotation.t;
  created_by : option string;
  version : string
}.

Definition init (i : string) (ps : list Process.t) (pl : list Pool.t) : t :=
  {| id := i;
     name := None;
     target_namespace := "http://bpmn.io/schema/bpmn";
     processes := ps;
     pools := pl;
     message_flows := [];
     global_data_stores := [];
     global_text_annotations := [];
     created_by := None;
     version := "1.0" |}.

(** [for process in self.processes]: delegate, return what is found
    (a model instance is always truthy). *)
Fixpoint search_processes (ps : list Process.t) (element_id : string)
  : option Element :=
  match ps with
  | [] => None
  | process :: rest =>
      match Process.get_element_by_id process element_id with
      | Some element => Some element
      | None => search_processes rest element_id
      end
  end.

(** [for lane in pool.lanes] *)
Fixpoint search_lanes (ls : list Lane.t) (element_id : string)
  : option Element :=
  match ls with
  | [] => None
  | lane :: rest =>
      if String.eqb (Lane.id lane) element_id
      then Some (ALane lane)
      else search_lanes rest element_id
  end.

(** [for pool in self.pools]: the pool itself, then its lanes. *)
Fixpoint search_pools (pl : list Pool.t) (element_id : string)
  : option Element :=
  match pl with
  | [] => None
  | pool :: rest =>
      if String.eqb (Pool.id pool) element_id
      then Some (APool pool)
      else match search_lanes (Pool.lanes pool) element_id with
           | Some element => Some element
           | None => search_pools rest element_id
           end
  end.

Fixpoint search_message_flows (ms : list MessageFlow.t) (element_id : string)
  : option Element :=
  match ms with
  | [] => None
  | message_flow :: rest =>
      if String.eqb (MessageFlow.id message_flow) element_id
      then Some (AMessageFlow message_flow)
      else search_message_flows rest element_id
  end.

Fixpoint search_data_stores (ds : list DataStore.t) (element_id : string)
  : option Element :=
  match ds with
  | [] => None
  | data_store :: rest =>
      if String.eqb (DataStore.id data_store) element_id
      then Some (ADataStore data_store)
      else search_data_stores rest element_id
  end.

Fixpoint search_annotations (ts : list TextAnnotation.t) (element_id : string)
  : option Element :=
  match ts with
  | [] => None
  | annotation :: rest =>
      if String.eqb (TextAnnotation.id annotation) element_id
      then Some (ATextAnnotation annotation)
      else search_annotations rest element_id
  end.

(** [x or_else y]: fall through to the next loop when nothing was
    returned. *)
Definition or_else (a : option Element) (b : option Element)
  : option Element :=
  match a with Some e => Some e | None => b end.

Definition get_element_by_id (self : t) (element_id : string)
  : option Element :=
  or_else (search_processes (processes self) element_id)
 (or_else (search_pools (pools self) element_id)
 (or_else (search_message_flows (message_flows self) element_id)
 (or_else (search_data_stores (global_data_stores self) element_id)
          (search_annotations (global_text_annotations self) element_id)))).

Definition with_members (self : t)
    (ps : list Process.t) (pl : list Pool.t) (ms : list MessageFlow.t) : t :=
  {| id := id self;
     name := name self;
     target_namespace := target_namespace self;
     processes := ps;
     pools := pl;
     message_flows := ms;
     global_data_stores := global_data_stores self;
     global_text_annotations := global_text_annotations self;
     created_by := created_by self;
     version := version self |}.

Definition add_process (self : t) (process : Process.t) : t :=
  with_members self (processes self ++ [process]) (pools self)
               (message_flows self).

Definition add_pool (self : t) (pool : Pool.t) : t :=
  with_members self (processes self) (pools self ++ [pool])
               (message_flows self).

Definition add_message_flow (self : t) (message_flow : MessageFlow.t) : t :=
  with_members self (processes self) (pools self)
               (message_flows self ++ [message_flow]).

Definition is_collaboration (self : t) : bool :=
  (0 <? List.length (pools self))%nat.

(** [get_all_processes()]: a copy of [processes]; the loop over the pools
    has [pass] as its only statement. *)
Definition get_all_processes (self : t) : list Process.t :=
  fold_left
    (fun all_processes pool =>
       match Pool.process_ref pool with
       | Some _ => all_processes
       | None => all_processes
       end)
    (pools self) (processes self).

(** The inner loop of [count_all_elements]:
    [process_counts[key] = process_counts.get(key, 0) + value]
    for each item of one process's counts. *)
Definition accumulate_counts (process_counts counts : PyDict.t) : PyDict.t :=
  fold_left
    (fun acc kv =>
       PyDict.set acc (fst kv) (PyDict.get_default acc (fst kv) 0 + snd kv))
    counts process_counts.

Definition count_all_elements (self : t) : PyDict.t :=
  let total_counts : PyDict.t :=
    [("processes", List.length (processes self));
     ("pools", List.length (pools self));
     ("message_flows", List.length (message_flows self));
     ("global_data_stores", List.length (global_data_stores self));
     ("global_text_annotations",
      List.length (global_text_annotations self))] in
  let process_counts : PyDict.t :=
    fold_left
      (fun acc process =>
         accumulate_counts acc (Process.count_elements process))
      (processes self) [] in
  PyDict.update total_counts process_counts.
End BPMNDiagram.

(** ** validation/validators.py *)

Inductive ValidationSeverity := ERROR | WARNING | INFO.

Definition ValidationSeverity_eqb (a b : ValidationSeverity) : bool :=
  match a, b with
  | ERROR, ERROR | WARNING, WARNING | INFO, INFO => true
  | _, _ => false
  end.

Module ValidationResult.
Record t := mk {
  severity : ValidationSeverity;
  element_id : option string;
  element_type : option string;
  message : string;
  rule_name : string
}.
End ValidationResult.

(** Python idioms used by the rules. *)

(** A list in a condition: true when it is not empty. *)
Definition truthy {A : Type} (l : list A) : bool :=
  match l with [] => false | _ :: _ => true end.

(** [for x in xs: body], where the body may append to [results]. *)
Definition for_each {A R : Type}
    (xs : list A) (body : A -> list R -> list R) (results : list R) : list R :=
  fold_left (fun acc x => body x acc) xs results.

(** [if cond: results.append(r)] *)
Definition append_if {R : Type} (cond : bool) (r : R) (results : list R)
  : list R :=
  if cond then results ++ [r] else results.

(** [isinstance(flow_obj, Event)] and [isinstance(flow_obj, Task)],
    with the narrowed object. *)
Definition as_Event (o : FlowObject) : option Event.t :=
  match o with FEvent x => Some x | _ => None end.

Definition as_Task (o : FlowObject) : option Task.t :=
  match o with FTask x => Some x | _ => None end.

(** [[f for f in process.sequence_flows if f.target_ref == i]] and its
    [source_ref] twin. *)
Definition incoming_of (process : Process.t) (i : string)
  : list SequenceFlow.t :=
  filter (fun f => String.eqb (SequenceFlow.target_ref f) i)
         (Process.sequence_flows process).

Definition outgoing_of (process : Process.t) (i : string)
  : list SequenceFlow.t :=
  filter (fun f => String.eqb (SequenceFlow.source_ref f) i)
         (Process.sequence_flows process).

Module ValidationRule.
(** The class of a rule object decides which [validate] runs. A rule
    written by a caller is a function of its own [name] and [severity]
    and of the diagram. *)
Inductive class :=
| BaseClass
| StartEventRuleClass
| EndEventRuleClass
| SequenceFlowRuleClass
| GatewayRuleClass
| CallerClass
    (validate : string -> ValidationSeverity -> BPMNDiagram.t
                -> Outcome (list ValidationResult.t)).

Record t := mk {
  name : string;
  severity : ValidationSeverity;
  cls : class
}.

(** [ValidationRule.__init__(name, severity=ERROR)] *)
Definition default_severity : ValidationSeverity := ERROR.
End ValidationRule.

Module StartEventRule.
Definition init : ValidationRule.t :=
  ValidationRule.mk "start_event_rule" ValidationRule.default_severity
                    ValidationRule.StartEventRuleClass.

Definition validate (self : ValidationRule.t) (diagram : BPMNDiagram.t)
  : list ValidationResult.t :=
  for_each (BPMNDiagram.processes diagram) (fun process results =>
    let start_events := Process.get_start_events process in
    if (List.length start_events =? 0)%nat then
      results ++ [ValidationResult.mk
        (ValidationRule.severity self)
        (Some (Process.id process))
        (Some "Process")
        "Process must have at least one start event"
        (ValidationRule.name self)]
    else if (1 <? List.length start_events)%nat then
      results ++ [ValidationResult.mk
        WARNING
        (Some (Process.id process))
        (Some "Process")
        ("Process has " ++ str_of_nat (List.length start_events)
         ++ " start events (multiple start events should be used carefully)")
        (ValidationRule.name self)]
    else results) [].
End StartEventRule.

Module EndEventRule.
Definition init : ValidationRule.t :=
  ValidationRule.mk "end_event_rule" ValidationRule.default_severity
                    ValidationRule.EndEventRuleClass.

Definition validate (self : ValidationRule.t) (diagram : BPMNDiagram.t)
  : list ValidationResult.t :=
  for_each (BPMNDiagram.processes diagram) (fun process results =>
    let end_events := Process.get_end_events process in
    append_if (List.length end_events =? 0)%nat
      (ValidationResult.mk
        WARNING
        (Some (Process.id process))
        (Some "Process")
        "Process should have at least one end event"
        (ValidationRule.name self))
      results) [].
End EndEventRule.

Module SequenceFlowRule.
Definition init : ValidationRule.t :=
  ValidationRule.mk "sequence_flow_rule" ValidationRule.default_severity
                    ValidationRule.SequenceFlowRuleClass.

(** The body of the inner loop: the three independent [if] statements
    run on one flow object. *)
Definition check_flow_object
    (self : ValidationRule.t) (process : Process.t) (flow_obj : FlowObject)
    (results : list ValidationResult.t) : list ValidationResult.t :=
  let incoming_flows := incoming_of process (FlowObject_id flow_obj) in
  let outgoing_flows := outgoing_of process (FlowObject_id flow_obj) in
  let results :=
    match as_Event flow_obj with
    | Some ev =>
        if Event.is_start_event ev then
          append_if (truthy incoming_flows)
            (ValidationResult.mk
              (ValidationRule.severity self)
              (Some (FlowObject_id flow_obj))
              (Some "StartEvent")
              "Start events cannot have incoming sequence flows"
              (ValidationRule.name self))
            results
        else results
    | None => results
    end in
  let results :=
    match as_Event flow_obj with
    | Some ev =>
        if Event.is_end_event ev then
          append_if (truthy outgoing_flows)
            (ValidationResult.mk
              (ValidationRule.severity self)
              (Some (FlowObject_id flow_obj))
              (Some "EndEvent")
              "End events cannot have outgoing sequence flows"
              (ValidationRule.name self))
            results
        else results
    | None => results
    end in
  match as_Task flow_obj with
  | Some _ =>
      append_if (negb (truthy incoming_flows) && negb (truthy outgoing_flows))
        (ValidationResult.mk
          WARNING
          (Some (FlowObject_id flow_obj))
          (Some "Task")
          "Task is not connected to any sequence flows"
          (ValidationRule.name self))
        results
  | None => results
  end.

Definition validate (self : ValidationRule.t) (diagram : BPMNDiagram.t)
  : list ValidationResult.t :=
  for_each (BPMNDiagram.processes diagram) (fun process results =>
    let flow_objects := Process.get_all_flow_objects process in
    for_each flow_objects (check_flow_object self process) results) [].
End SequenceFlowRule.

Module GatewayRule.
Definition init : ValidationRule.t :=
  ValidationRule.mk "gateway_rule" ValidationRule.default_severity
                    ValidationRule.GatewayRuleClass.

Definition finding (sev : ValidationSeverity) (gateway : Gateway.t)
    (msg : string) (self : ValidationRule.t) : ValidationResult.t :=
  ValidationResult.mk sev (Some (Gateway.id gateway)) (Some "Gateway")
                      msg (ValidationRule.name self).

(** The body of the inner loop: four independent [if] statements. *)
Definition check_gateway
    (self : ValidationRule.t) (process : Process.t) (gateway : Gateway.t)
    (results : list ValidationResult.t) : list ValidationResult.t :=
  let incoming_flows := incoming_of process (Gateway.id gateway) in
  let outgoing_flows := outgoing_of process (Gateway.id gateway) in
  let results :=
    append_if (List.length incoming_flows =? 0)%nat
      (finding (ValidationRule.severity self) gateway
         "Gateway must have at least one incoming sequence flow" self)
      results in
  let results :=
    append_if (List.length outgoing_flows =? 0)%nat
      (finding (ValidationRule.severity self) gateway
         "Gateway must have at least one outgoing sequence flow" self)
      results in
  let results :=
    append_if (Gateway.is_diverging gateway && (List.length outgoing_flows <? 2)%nat)
      (finding WARNING gateway
         "Diverging gateway should have multiple outgoing flows" self)
      results in
  append_if (Gateway.is_converging gateway && (List.length incoming_flows <? 2)%nat)
    (finding WARNING gateway
       "Converging gateway should have multiple incoming flows" self)
    results.

Definition validate (self : ValidationRule.t) (diagram : BPMNDiagram.t)
  : list ValidationResult.t :=
  for_each (BPMNDiagram.processes diagram) (fun process results =>
    for_each (Process.gateways process) (check_gateway self process) results)
    [].
End GatewayRule.

(** [rule.validate(diagram)]: method dispatch on the class of the rule.
    The base class raises [NotImplementedError]. *)
Definition rule_validate (rule : ValidationRule.t) (diagram : BPMNDiagram.t)
  : Outcome (list ValidationResult.t) :=
  match ValidationRule.cls rule with
  | ValidationRule.BaseClass => Raised NotImplementedError
  | ValidationRule.StartEventRuleClass =>
      Returned (StartEventRule.validate rule diagram)
  | ValidationRule.EndEventRuleClass =>
      Returned (EndEventRule.validate rule diagram)
  | ValidationRule.SequenceFlowRuleClass =>
      Returned (SequenceFlowRule.validate rule diagram)
  | ValidationRule.GatewayRuleClass =>
      Returned (GatewayRule.validate rule diagram)
  | ValidationRule.CallerClass f =>
      f (ValidationRule.name rule) (ValidationRule.severity rule) diagram
  end.

Module BPMNValidator.
Record t := mk {
  diagram : BPMNDiagram.t;
  rules : list ValidationRule.t;
  results : list ValidationResult.t
}.

Definition init (d : BPMNDiagram.t) : t :=
  {| diagram := d;
     rules := [StartEventRule.init; EndEventRule.init;
               SequenceFlowRule.init; GatewayRule.init];
     results := [] |}.

Definition add_rule (self : t) (rule : ValidationRule.t) : t :=
  {| diagram := diagram self;
     rules := rules self ++ [rule];
     results := results self |}.

(** [for rule in self.rules: self.results.extend(rule.validate(...))].
    An exception leaves the loop with the buffer as it is then. *)
Fixpoint run_rules (rs : list ValidationRule.t) (d : BPMNDiagram.t)
    (buffer : list ValidationResult.t)
  : Outcome unit * list ValidationResult.t :=
  match rs with
  | [] => (Returned tt, buffer)
  | rule :: rest =>
      match rule_validate rule d with
      | Returned rule_results => run_rules rest d (buffer ++ rule_results)
      | Raised e => (Raised e, buffer)
      end
  end.

Definition is_error (r : ValidationResult.t) : bool :=
  ValidationSeverity_eqb (ValidationResult.severity r) ERROR.

Definition is_warning (r : ValidationResult.t) : bool :=
  ValidationSeverity_eqb (ValidationResult.severity r) WARNING.

(** [validate()]: the value returned (or the exception) and the
    validator afterwards. The buffer is cleared first. *)
Definition validate (self : t) : Outcome bool * t :=
  let cleared : list ValidationResult.t := [] in
  let (status, buffer) := run_rules (rules self) (diagram self) cleared in
  let self' := {| diagram := diagram self;
                  rules := rules self;
                  results := buffer |} in
  match status with
  | Returned _ => (Returned (negb (existsb is_error buffer)), self')
  | Raised e => (Raised e, self')
  end.

Definition get_errors (self : t) : list ValidationResult.t :=
  filter is_error (results self).

Definition get_warnings (self : t) : list ValidationResult.t :=
  filter is_warning (results self).

Definition has_errors (self : t) : bool :=
  existsb is_error (results self).

Definition has_warnings (self : t) : bool :=
  existsb is_warning (results self).

Definition is_info (r : ValidationResult.t) : bool :=
  ValidationSeverity_eqb (ValidationResult.severity r) INFO.

(** An [Optional[str]] inside an f-string. *)
Definition str_of_optional (o : option string) : string :=
  match o with Some s => s | None => "None" end.

Definition newline : string := String (Ascii.ascii_of_nat 10) EmptyString.

(** One line of the report per finding. *)
Definition report_item (r : ValidationResult.t) : string :=
  "  • " ++ ValidationResult.message r ++ " (Element: "
    ++ str_of_optional (ValidationResult.element_id r) ++ ")".

(** [if group: report_lines.extend([title, ""]); ... append each item;
    report_lines.append("")] *)
Definition report_group (title : string) (group : list ValidationResult.t)
    (report_lines : list string) : list string :=
  if truthy group
  then report_lines ++ [title; ""] ++ map report_item group ++ [""]
  else report_lines.

Definition report_lines (self : t) : list string :=
  let report_lines :=
    ["BPMN Validation Report"; String.concat "" (repeat "=" 25); ""] in
  let errors := filter is_error (results self) in
  let warnings := filter is_warning (results self) in
  let infos := filter is_info (results self) in
  let report_lines := report_group "ERRORS:" errors report_lines in
  let report_lines := report_group "WARNINGS:" warnings report_lines in
  let report_lines := report_group "INFO:" infos report_lines in
  report_lines
  ++ ["SUMMARY:";
      ("  Errors: " ++ str_of_nat (List.length errors))%string;
      ("  Warnings: " ++ str_of_nat (List.length warnings))%string;
      ("  Info: " ++ str_of_nat (List.length infos))%string;
      ("  Total Issues: " ++ str_of_nat (List.length (results self)))%string].

Definition get_validation_report (self : t) : string :=
  if negb (truthy (results self))
  then "Validation passed: No issues found."
  else String.concat newline (report_lines self).
End BPMNValidator.

(** ** The specification's reading of scopes and rules

    The definitions below do not come from the code: they spell out the
    words of the specification, to be compared with the code above. *)

Module Spec.
(** Ids held inside a sub-process: its nested elements (and, through
    nested sub-processes, theirs), its nested sequence flows and its
    boundary events. *)
Fixpoint subprocess_nested_ids (s : SubProcess.t) : list string :=
  match s with
  | SubProcess.mk _ els sfs bes =>
      (fix children (l : list SubProcess.child) : list string :=
         match l with
         | [] => []
         | c :: rest =>
             match c with
             | SubProcess.OfTask x => [Task.id x]
             | SubProcess.OfEvent x => [Event.id x]
             | SubProcess.OfSubProcess x =>
                 SubProcess.id x :: subprocess_nested_ids x
             end ++ children rest
         end) els
      ++ map SequenceFlow.id sfs
      ++ map Event.id bes
  end.

(** Ids under the scope of a process when what its sub-processes hold
    counts as under that scope. *)
Definition process_scope_ids (p : Process.t) : list string :=
  map Element_id (Process.get_all_elements p)
  ++ flat_map subprocess_nested_ids (Process.subprocesses p).

(** A lane followed by the lanes nested below it. *)
Fixpoint lane_and_descendants (l : Lane.t) : list Lane.t :=
  match l with
  | Lane.mk _ _ children _ =>
      l :: (fix below (cs : list Lane.t) : list Lane.t :=
              match cs with
              | [] => []
              | c :: rest => lane_and_descendants c ++ below rest
              end) children
  end.

(** The scan order of the diagram lookup with child lanes included. *)
Definition scan_order_with_child_lanes (d : BPMNDiagram.t) : list Element :=
  flat_map Process.get_all_elements (BPMNDiagram.processes d)
  ++ flat_map (fun pool =>
                 APool pool
                 :: map ALane (flat_map lane_and_descendants (Pool.lanes pool)))
              (BPMNDiagram.pools d)
  ++ map AMessageFlow (BPMNDiagram.message_flows d)
  ++ map ADataStore (BPMNDiagram.global_data_stores d)
  ++ map ATextAnnotation (BPMNDiagram.global_text_annotations d).

(** The scan order with only the lanes a pool holds directly. *)
Definition scan_order (d : BPMNDiagram.t) : list Element :=
  flat_map Process.get_all_elements (BPMNDiagram.processes d)
  ++ flat_map (fun pool => APool pool :: map ALane (Pool.lanes pool))
              (BPMNDiagram.pools d)
  ++ map AMessageFlow (BPMNDiagram.message_flows d)
  ++ map ADataStore (BPMNDiagram.global_data_stores d)
  ++ map ATextAnnotation (BPMNDiagram.global_text_annotations d).

(** "Returns the first element whose id equals s, or no match." *)
Definition first_with_id (l : list Element) (s : string) : option Element :=
  find (fun e => String.eqb (Element_id e) s) l.

(** The configuration error the specification gives [set_default_flow]
    on an unsupported kind: a [ValueError] whose message names the
    kind. *)
Definition default_flow_error (k : GatewayType) : PyException :=
  ValueError
    ("Default flow not supported for " ++ GatewayType_value k ++ " gateway").

(** Connectivity rule, in the words of the specification. *)
Definition has_incoming (p : Process.t) (i : string) : bool :=
  existsb (fun f => String.eqb (SequenceFlow.target_ref f) i)
          (Process.sequence_flows p).

Definition has_outgoing (p : Process.t) (i : string) : bool :=
  existsb (fun f => String.eqb (SequenceFlow.source_ref f) i)
          (Process.sequence_flows p).

Definition connectivity_finding
    (sev : ValidationSeverity) (i ty msg : string) : ValidationResult.t :=
  ValidationResult.mk sev (Some i) (Some ty) msg "sequence_flow_rule".

Definition event_findings (p : Process.t) (e : Event.t)
  : list ValidationResult.t :=
  match Event.event_type e with
  | START =>
      if has_incoming p (Event.id e)
      then [connectivity_finding ERROR (Event.id e) "StartEvent"
              "Start events cannot have incoming sequence flows"]
      else []
  | END =>
      if has_outgoing p (Event.id e)
      then [connectivity_finding ERROR (Event.id e) "EndEvent"
              "End events cannot have outgoing sequence flows"]
      else []
  | _ => []
  end.

Definition task_findings (p : Process.t) (x : Task.t)
  : list ValidationResult.t :=
  if has_incoming p (Task.id x) || has_outgoing p (Task.id x)
  then []
  else [connectivity_finding WARNING (Task.id x) "Task"
          "Task is not connected to any sequence flows"].

(** The findings one flow object gives rise to: only events and tasks
    are looked at. *)
Definition object_findings (p : Process.t) (o : FlowObject)
  : list ValidationResult.t :=
  match o with
  | FEvent e => event_findings p e
  | FTask x => task_findings p x
  | FGateway _ => []
  | FSubProcess _ => []
  end.

Definition connectivity_findings (p : Process.t) : list ValidationResult.t :=
  flat_map (event_findings p) (Process.events p)
  ++ flat_map (task_findings p) (Process.tasks p).
End Spec.

(** ** Concrete diagrams *)

Module Scenario.
(** Scenario C: gateway [g1], diverging, one outgoing flow. *)
Definition g1 : Gateway.t := Gateway.init "g1" EXCLUSIVE diverging.
Definition flow_C : SequenceFlow.t := SequenceFlow.init "f1" "g1" "t1".
Definition process_C : Process.t :=
  Process.init "p1" [] [] [g1] [] [flow_C].
Definition diagram_C : BPMNDiagram.t :=
  BPMNDiagram.init "d1" [process_C] [].

(** The same with the flow leading back into [g1], so that no reference
    dangles. *)
Definition flow_C_loop : SequenceFlow.t := SequenceFlow.init "f1" "g1" "g1".
Definition process_C_loop : Process.t :=
  Process.init "p1" [] [] [g1] [] [flow_C_loop].
Definition diagram_C_loop : BPMNDiagram.t :=
  BPMNDiagram.init "d1" [process_C_loop] [].

(** Scenario D: start event [s1] with one incoming flow from task [t0]. *)
Definition s1 : Event.t := Event.init "s1" START.
Definition t0 : Task.t := Task.init "t0".
Definition flow_D : SequenceFlow.t := SequenceFlow.init "f1" "t0" "s1".
Definition process_D : Process.t :=
  Process.init "p1" [s1] [t0] [] [] [flow_D].
Definition diagram_D : BPMNDiagram.t :=
  BPMNDiagram.init "d1" [process_D] [].

(** A process whose only sub-process holds a task, a sequence flow and
    a boundary event. *)
Definition sp1 : SubProcess.t :=
  fst (SubProcess.add_boundary_event
         (SubProcess.add_sequence_flow
            (SubProcess.add_element (SubProcess.init "sp1" EMBEDDED)
               (SubProcess.OfTask (Task.init "t1")))
            (SequenceFlow.init "f1" "t1" "t2"))
         (Event.init "b1" INTERMEDIATE)).
Definition process_nested : Process.t :=
  Process.init "p1" [] [] [] [sp1] [].

(** A pool whose lane [l1] has a child lane [l2]. *)
Definition l2 : Lane.t := Lane.init "l2".
Definition l1 : Lane.t := Lane.add_child_lane (Lane.init "l1") l2.
Definition diagram_lanes : BPMNDiagram.t :=
  BPMNDiagram.init "d1" [] [Pool.init "pool1" [l1]].

(** A parallel gateway that already has a default flow recorded. *)
Definition parallel_gateway : Gateway.t :=
  Gateway.with_default_flow (Gateway.init "g2" PARALLEL diverging)
                            (Some "f0").
End Scenario.

(** ** Classification of element objects *)

Module Kind.
(** The classes [add_flow_object] accepts. *)
Definition is_flow_object (e : Element) : bool :=
  match e with
  | ATask _ | AnEvent _ | AGateway _ | ASubProcess _ => true
  | _ => false
  end.

(** The classes [add_connecting_object] accepts. *)
Definition is_connecting_object (e : Element) : bool :=
  match e with
  | ASequenceFlow _ | AnAssociation _ => true
  | _ => false
  end.

(** The classes [add_artifact] accepts. *)
Definition is_artifact (e : Element) : bool :=
  match e with
  | ADataObject _ | ADataStore _ | AGroup _ | ATextAnnotation _ => true
  | _ => false
  end.

(** The element as an item of each typed collection: one item for the
    collection of its class, none for the others. *)
Definition as_events (e : Element) : list Event.t :=
  match e with AnEvent x => [x] | _ => [] end.
Definition as_tasks (e : Element) : list Task.t :=
  match e with ATask x => [x] | _ => [] end.
Definition as_gateways (e : Element) : list Gateway.t :=
  match e with AGateway x => [x] | _ => [] end.
Definition as_subprocesses (e : Element) : list SubProcess.t :=
  match e with ASubProcess x => [x] | _ => [] end.
Definition as_sequence_flows (e : Element) : list SequenceFlow.t :=
  match e with ASequenceFlow x => [x] | _ => [] end.
Definition as_associations (e : Element) : list Association.t :=
  match e with AnAssociation x => [x] | _ => [] end.
Definition as_data_objects (e : Element) : list DataObject.t :=
  match e with ADataObject x => [x] | _ => [] end.
Definition as_data_stores (e : Element) : list DataStore.t :=
  match e with ADataStore x => [x] | _ => [] end.
Definition as_groups (e : Element) : list Group.t :=
  match e with AGroup x => [x] | _ => [] end.
Definition as_text_annotations (e : Element) : list TextAnnotation.t :=
  match e with ATextAnnotation x => [x] | _ => [] end.

(** [P'] is [P] with the element appended to the collection of its class:
    that collection is the old one followed by the element, every other
    collection and every scalar field is what it was. *)
Definition appended_to (P P' : Process.t) (e : Element) : Prop :=
  Process.events P' = Process.events P ++ as_events e
  /\ Process.tasks P' = Process.tasks P ++ as_tasks e
  /\ Process.gateways P' = Process.gateways P ++ as_gateways e
  /\ Process.subprocesses P' = Process.subprocesses P ++ as_subprocesses e
  /\ Process.sequence_flows P'
     = Process.sequence_flows P ++ as_sequence_flows e
  /\ Process.associations P' = Process.associations P ++ as_associations e
  /\ Process.data_objects P' = Process.data_objects P ++ as_data_objects e
  /\ Process.data_stores P' = Process.data_stores P ++ as_data_stores e
  /\ Process.groups P' = Process.groups P ++ as_groups e
  /\ Process.text_annotations P'
     = Process.text_annotations P ++ as_text_annotations e
  /\ Process.lanes P' = Process.lanes P
  /\ Process.base P' = Process.base P
  /\ Process.is_executable P' = Process.is_executable P
  /\ Process.is_closed P' = Process.is_closed P
  /\ Process.process_type P' = Process.process_type P
  /\ Process.definitional_collaboration_ref P'
     = Process.definitional_collaboration_ref P.
End Kind.

(** ** Closed forms of the counting functions *)

Module Closed.
(** A dict with the eleven keys of [Process.count_elements], in its
    order. *)
Definition labelled (n1 n2 n3 n4 n5 n6 n7 n8 n9 n10 n11 : nat) : PyDict.t :=
  [("events", n1); ("tasks", n2); ("gateways", n3); ("subprocesses", n4);
   ("sequence_flows", n5); ("associations", n6); ("data_objects", n7);
   ("data_stores", n8); ("groups", n9); ("text_annotations", n10);
   ("lanes", n11)].

(** The sum of one size over the processes of a diagram. *)
Definition total (size : Process.t -> nat) (ps : list Process.t) : nat :=
  list_sum (map size ps).

Definition summed_counts (ps : list Process.t) : PyDict.t :=
  labelled
    (total (fun p => List.length (Process.events p)) ps)
    (total (fun p => List.length (Process.tasks p)) ps)
    (total (fun p => List.length (Process.gateways p)) ps)
    (total (fun p => List.length (Process.subprocesses p)) ps)
    (total (fun p => List.length (Process.sequence_flows p)) ps)
    (total (fun p => List.length (Process.associations p)) ps)
    (total (fun p => List.length (Process.data_objects p)) ps)
    (total (fun p => List.length (Process.data_stores p)) ps)
    (total (fun p => List.length (Process.groups p)) ps)
    (total (fun p => List.length (Process.text_annotations p)) ps)
    (total (fun p => List.length (Process.lanes p)) ps).

(** The five entries [count_all_elements] starts from. *)
Definition diagram_counts (d : BPMNDiagram.t) : PyDict.t :=
  [("processes", List.length (BPMNDiagram.processes d));
   ("pools", List.length (BPMNDiagram.pools d));
   ("message_flows", List.length (BPMNDiagram.message_flows d));
   ("global_data_stores", List.length (BPMNDiagram.global_data_stores d));
   ("global_text_annotations",
    List.length (BPMNDiagram.global_text_annotations d))].
End Closed.

(** ** Closed forms of the built-in rules *)

Module Rules.
(** What the start-event rule reports for one process. *)
Definition start_findings (p : Process.t) : list ValidationResult.t :=
  match List.length (Process.get_start_events p) with
  | 0 =>
      [ValidationResult.mk ERROR (Some (Process.id p)) (Some "Process")
         "Process must have at least one start event" "start_event_rule"]
  | 1 => []
  | n =>
      [ValidationResult.mk WARNING (Some (Process.id p)) (Some "Process")
         ("Process has " ++ str_of_nat n
          ++ " start events (multiple start events should be used carefully)")
         "start_event_rule"]
  end.

(** What the end-event rule reports for one process. *)
Definition end_findings (p : Process.t) : list ValidationResult.t :=
  if existsb Event.is_end_event (Process.events p)
  then []
  else [ValidationResult.mk WARNING (Some (Process.id p)) (Some "Process")
          "Process should have at least one end event" "end_event_rule"].

Definition gateway_finding (sev : ValidationSeverity) (g : Gateway.t)
    (msg : string) : ValidationResult.t :=
  ValidationResult.mk sev (Some (Gateway.id g)) (Some "Gateway") msg
                      "gateway_rule".

(** What the gateway rule reports for one gateway of a process. *)
Definition gateway_findings (p : Process.t) (g : Gateway.t)
  : list ValidationResult.t :=
  (if Spec.has_incoming p (Gateway.id g) then []
   else [gateway_finding ERROR g
           "Gateway must have at least one incoming sequence flow"])
  ++ (if Spec.has_outgoing p (Gateway.id g) then []
      else [gateway_finding ERROR g
              "Gateway must have at least one outgoing sequence flow"])
  ++ match Gateway.gateway_direction g with
     | diverging =>
         if (List.length (outgoing_of p (Gateway.id g)) <? 2)%nat
         then [gateway_finding WARNING g
                 "Diverging gateway should have multiple outgoing flows"]
         else []
     | converging =>
         if (List.length (incoming_of p (Gateway.id g)) <? 2)%nat
         then [gateway_finding WARNING g
                 "Converging gateway should have multiple incoming flows"]
         else []
     | _ => []
     end.

(** The findings of the four built-in rules, in the order of the rule
    list. *)
Definition builtin_findings (d : BPMNDiagram.t) : list ValidationResult.t :=
  StartEventRule.validate StartEventRule.init d
  ++ EndEventRule.validate EndEventRule.init d
  ++ SequenceFlowRule.validate SequenceFlowRule.init d
  ++ GatewayRule.validate GatewayRule.init d.

(** The findings of a rule that returns; nothing for a rule that
    raises. *)
Definition findings_of (rule : ValidationRule.t) (d : BPMNDiagram.t)
  : list ValidationResult.t :=
  match rule_validate rule d with
  | Returned found => found
  | Raised _ => []
  end.

(** A sequence flow neither end of which names a flow object of the
    process. *)
Definition dangling (p : Process.t) (f : SequenceFlow.t) : Prop :=
  forall o, In o (Process.get_all_flow_objects p) ->
            FlowObject_id o <> SequenceFlow.source_ref f
            /\ FlowObject_id o <> SequenceFlow.target_ref f.
End Rules.

(** ** Sample rules and diagrams *)

Module Sample.
(** A caller rule that reports one error on the diagram as a whole. *)
Definition veto : ValidationRule.t :=
  ValidationRule.mk "veto" ERROR
    (ValidationRule.CallerClass
       (fun name sev _ =>
          Returned [ValidationResult.mk sev None None "Rejected" name])).

(** A rule object of the base class, whose [validate] is not
    overridden. *)
Definition abstract_rule : ValidationRule.t :=
  ValidationRule.mk "abstract" ERROR ValidationRule.BaseClass.

(** Scenario A: a process without flow objects. *)
Definition process_A : Process.t := Process.init "p1" [] [] [] [] [].
Definition diagram_A : BPMNDiagram.t := BPMNDiagram.init "d1" [process_A] [].

(** Scenario B: start event, task, end event, linked in a line. *)
Definition e1 : Event.t := Event.init "e1" END.
Definition t1 : Task.t := Task.init "t1".
Definition process_B : Process.t :=
  Process.init "p1" [Scenario.s1; e1] [t1] [] []
    [SequenceFlow.init "f1" "s1" "t1"; SequenceFlow.init "f2" "t1" "e1"].
Definition diagram_B : BPMNDiagram.t := BPMNDiagram.init "d1" [process_B] [].

(** A flow between two ids no element carries. *)
Definition stray_flow : SequenceFlow.t := SequenceFlow.init "f9" "x" "y".
End Sample.

(** * Properties *)

(** ** Gateways *)

Lemma GatewayType_eqb_eq (a b : GatewayType) :
  GatewayType_eqb a b = true <-> a = b.
Proof.
  split.
  - destruct a, b; (reflexivity || discriminate).
  - intros ->. apply String.eqb_refl.
Qed.

Lemma default_flow_supported_iff (g : Gateway.t) :
  Gateway.is_exclusive g || Gateway.is_inclusive g = true
  <-> Gateway.gateway_type g = EXCLUSIVE \/ Gateway.gateway_type g = INCLUSIVE.
Proof.
  unfold Gateway.is_exclusive, Gateway.is_inclusive.
  rewrite orb_true_iff, !GatewayType_eqb_eq. reflexivity.
Qed.

(** C5. The code against the claim. [Gateway.set_default_flow(f)]
    returns exactly when the kind is exclusive or inclusive, and the
    gateway afterwards differs only in [default_flow], which is [f]. For
    every other kind the call itself raises and the gateway (its
    [default_flow] included) is what it was; but what it raises is
    [AttributeError], from reading [.value] of the stored kind, and not
    the [ValueError] naming the kind that the claim states and the [raise]
    statement is written for. So it is at the parallel gateway [g2]. *)
Theorem set_default_flow_unsupported_kind :
  (Gateway.set_default_flow Scenario.parallel_gateway "f9"
   = (Raised (AttributeError "'str' object has no attribute 'value'"),
      Scenario.parallel_gateway)
   /\ fst (Gateway.set_default_flow Scenario.parallel_gateway "f9")
      <> Raised (Spec.default_flow_error PARALLEL))
  /\
  forall (g : Gateway.t) (f : string),
    ((Gateway.gateway_type g = EXCLUSIVE \/ Gateway.gateway_type g = INCLUSIVE)
     /\ Gateway.set_default_flow g f
        = (Returned tt, Gateway.with_default_flow g (Some f))
     /\ Gateway.default_flow (snd (Gateway.set_default_flow g f)) = Some f)
    \/
    (Gateway.gateway_type g <> EXCLUSIVE
     /\ Gateway.gateway_type g <> INCLUSIVE
     /\ Gateway.set_default_flow g f
        = (Raised (AttributeError "'str' object has no attribute 'value'"), g)
     /\ fst (Gateway.set_default_flow g f)
        <> Raised (Spec.default_flow_error (Gateway.gateway_type g))
     /\ Gateway.default_flow (snd (Gateway.set_default_flow g f))
        = Gateway.default_flow g).
Proof.
  split; [split; [reflexivity | discriminate]|].
  intros g f. unfold Gateway.set_default_flow.
  destruct (Gateway.is_exclusive g || Gateway.is_inclusive g) eqn:K.
  - left. apply default_flow_supported_iff in K. repeat split; assumption.
  - right.
    assert (N : ~ (Gateway.gateway_type g = EXCLUSIVE
                   \/ Gateway.gateway_type g = INCLUSIVE)).
    { intros H. apply default_flow_supported_iff in H. congruence. }
    repeat split; auto; discriminate.
Qed.

(** The message the specification expects at that gateway, and the old
    default flow, which is still there after the failed call. *)
Example set_default_flow_on_parallel :
  Spec.default_flow_error PARALLEL
  = ValueError "Default flow not supported for parallel gateway"
  /\ Gateway.default_flow
       (snd (Gateway.set_default_flow Scenario.parallel_gateway "f9"))
     = Some "f0".
Proof. split; reflexivity. Qed.

(** ** Tasks *)

Lemma has_marker_configure
    (m m' : ActivityMarker) (seq : bool) (x : Task.t) (c v : string) :
  Task.has_marker m (Task.configure_multi_instance m' seq x c v)
  = Task.has_marker m x || ActivityMarker_eqb m m'.
Proof.
  unfold Task.has_marker, Task.configure_multi_instance.
  cbn [Task.markers]. rewrite existsb_app. cbn [existsb].
  now rewrite orb_false_r.
Qed.

(** C9. Each multi-instance setter appends its own marker to the markers
    already there and sets [collection], [element_variable] and
    [is_sequential]; nothing is removed, so after both setters (in either
    order) both markers are in the list and both predicates hold. *)
Theorem multi_instance_markers_accumulate :
  forall (x : Task.t) (c v c' v' : string),
    (Task.markers (Task.set_multi_instance_parallel x c v)
       = Task.markers x ++ [PARALLEL_MULTI_INSTANCE]
     /\ Task.collection (Task.set_multi_instance_parallel x c v) = Some c
     /\ Task.element_variable (Task.set_multi_instance_parallel x c v) = Some v
     /\ Task.is_sequential (Task.set_multi_instance_parallel x c v) = false)
    /\
    (Task.markers (Task.set_multi_instance_sequential x c v)
       = Task.markers x ++ [SEQUENTIAL_MULTI_INSTANCE]
     /\ Task.collection (Task.set_multi_instance_sequential x c v) = Some c
     /\ Task.element_variable (Task.set_multi_instance_sequential x c v) = Some v
     /\ Task.is_sequential (Task.set_multi_instance_sequential x c v) = true)
    /\
    (let both := Task.set_multi_instance_sequential
                   (Task.set_multi_instance_parallel x c v) c' v' in
     Task.markers both
       = Task.markers x ++ [PARALLEL_MULTI_INSTANCE; SEQUENTIAL_MULTI_INSTANCE]
     /\ Task.is_parallel_multi_instance both = true
     /\ Task.is_sequential_multi_instance both = true)
    /\
    (let both := Task.set_multi_instance_parallel
                   (Task.set_multi_instance_sequential x c v) c' v' in
     Task.markers both
       = Task.markers x ++ [SEQUENTIAL_MULTI_INSTANCE; PARALLEL_MULTI_INSTANCE]
     /\ Task.is_parallel_multi_instance both = true
     /\ Task.is_sequential_multi_instance both = true).
Proof.
  intros x c v c' v'.
  split; [repeat split | split; [repeat split | split]].
  - cbn zeta. split; [cbn; now rewrite <- app_assoc |].
    unfold Task.is_parallel_multi_instance, Task.is_sequential_multi_instance,
      Task.set_multi_instance_parallel, Task.set_multi_instance_sequential.
    rewrite !has_marker_configure. cbn [ActivityMarker_eqb].
    split; [now rewrite orb_true_r | now rewrite orb_true_r].
  - cbn zeta. split; [cbn; now rewrite <- app_assoc |].
    unfold Task.is_parallel_multi_instance, Task.is_sequential_multi_instance,
      Task.set_multi_instance_parallel, Task.set_multi_instance_sequential.
    rewrite !has_marker_configure. cbn [ActivityMarker_eqb].
    split; [now rewrite orb_true_r | now rewrite !orb_true_r].
Qed.

(** ** Sub-processes *)

(** C10. After [S.add_boundary_event(e)] the event is a boundary event
    attached to [S.id] and interrupting, whatever its interrupting flag was
    before; the sub-process holds that event as the last of its boundary
    events and is otherwise unchanged. *)
Theorem add_boundary_event_always_interrupting :
  forall (S : SubProcess.t) (e : Event.t),
    let S' := fst (SubProcess.add_boundary_event S e) in
    let e' := snd (SubProcess.add_boundary_event S e) in
    Event.event_type e' = BOUNDARY
    /\ Event.attached_to_ref e' = Some (SubProcess.id S)
    /\ Event.is_interrupting e' = true
    /\ Event.is_boundary_event e' = true
    /\ SubProcess.boundary_events S' = SubProcess.boundary_events S ++ [e']
    /\ SubProcess.elements S' = SubProcess.elements S
    /\ SubProcess.sequence_flows S' = SubProcess.sequence_flows S
    /\ SubProcess.attributes S' = SubProcess.attributes S.
Proof.
  intros S e. cbn. repeat split.
Qed.

(** ** Lookup by id *)

Section Scan.
Variable s : string.

Lemma scan_first_with_id (l : list Element) :
  Process.scan l s = Spec.first_with_id l s.
Proof.
  induction l as [|e l IH]; cbn; [reflexivity|].
  destruct (String.eqb (Element_id e) s); [reflexivity | exact IH].
Qed.

Lemma scan_app (l1 l2 : list Element) :
  Process.scan (l1 ++ l2) s
  = BPMNDiagram.or_else (Process.scan l1 s) (Process.scan l2 s).
Proof.
  induction l1 as [|e l1 IH]; cbn.
  - now destruct (Process.scan l2 s).
  - destruct (String.eqb (Element_id e) s); [reflexivity | exact IH].
Qed.

Lemma scan_None_iff (l : list Element) :
  Process.scan l s = None <-> ~ In s (map Element_id l).
Proof.
  induction l as [|e l IH]; cbn.
  - tauto.
  - destruct (String.eqb (Element_id e) s) eqn:E.
    + apply String.eqb_eq in E. split; [discriminate | tauto].
    + apply String.eqb_neq in E. rewrite IH. tauto.
Qed.

Lemma scan_Some (l : list Element) (e : Element) :
  Process.scan l s = Some e -> In e l /\ Element_id e = s.
Proof.
  induction l as [|x l IH]; cbn; [discriminate|].
  destruct (String.eqb (Element_id x) s) eqn:E.
  - intros [= <-]. apply String.eqb_eq in E. auto.
  - intros H. destruct (IH H). auto.
Qed.

Lemma scan_unique (l : list Element) (e : Element) :
  NoDup (map Element_id l) -> In e l -> Element_id e = s ->
  Process.scan l s = Some e.
Proof.
  induction l as [|x l IH]; cbn; [tauto|].
  intros ND [-> | Hin] Hid.
  - apply String.eqb_eq in Hid. now rewrite Hid.
  - inversion ND as [|? ? Hx ND']; subst.
    destruct (String.eqb (Element_id x) (Element_id e)) eqn:E.
    + apply String.eqb_eq in E. exfalso. apply Hx. rewrite E.
      now apply in_map.
    + now apply IH.
Qed.

Lemma search_processes_scan (ps : list Process.t) :
  BPMNDiagram.search_processes ps s
  = Process.scan (flat_map Process.get_all_elements ps) s.
Proof.
  induction ps as [|p ps IH]; cbn; [reflexivity|].
  rewrite scan_app, <- IH. unfold Process.get_element_by_id.
  now destruct (Process.scan (Process.get_all_elements p) s).
Qed.

Lemma search_lanes_scan (ls : list Lane.t) :
  BPMNDiagram.search_lanes ls s = Process.scan (map ALane ls) s.
Proof.
  induction ls as [|l ls IH]; cbn; [reflexivity|].
  now rewrite IH.
Qed.

Lemma search_pools_scan (pl : list Pool.t) :
  BPMNDiagram.search_pools pl s
  = Process.scan
      (flat_map (fun pool => APool pool :: map ALane (Pool.lanes pool)) pl) s.
Proof.
  induction pl as [|p pl IH]; cbn; [reflexivity|].
  destruct (String.eqb (Pool.id p) s); [reflexivity|].
  rewrite scan_app, <- IH, <- search_lanes_scan.
  now destruct (BPMNDiagram.search_lanes (Pool.lanes p) s).
Qed.

Lemma search_message_flows_scan (ms : list MessageFlow.t) :
  BPMNDiagram.search_message_flows ms s = Process.scan (map AMessageFlow ms) s.
Proof.
  induction ms as [|m ms IH]; cbn; [reflexivity|]. now rewrite IH.
Qed.

Lemma search_data_stores_scan (ds : list DataStore.t) :
  BPMNDiagram.search_data_stores ds s = Process.scan (map ADataStore ds) s.
Proof.
  induction ds as [|x ds IH]; cbn; [reflexivity|]. now rewrite IH.
Qed.

Lemma search_annotations_scan (ts : list TextAnnotation.t) :
  BPMNDiagram.search_annotations ts s
  = Process.scan (map ATextAnnotation ts) s.
Proof.
  induction ts as [|x ts IH]; cbn; [reflexivity|]. now rewrite IH.
Qed.

Lemma diagram_lookup_scan (d : BPMNDiagram.t) :
  BPMNDiagram.get_element_by_id d s = Process.scan (Spec.scan_order d) s.
Proof.
  unfold BPMNDiagram.get_element_by_id, Spec.scan_order.
  rewrite !scan_app.
  now rewrite search_processes_scan, search_pools_scan,
    search_message_flows_scan, search_data_stores_scan,
    search_annotations_scan.
Qed.
End Scan.

(** C3, as the code has it. [P.get_element_by_id(s)] looks only at
    [P.get_all_elements()], the eleven collections the process holds
    directly. It returns no match exactly when none of those elements has
    id [s]; a match is the first such element in the order of
    [get_all_elements], it has id [s], and when the ids of those elements
    are pairwise distinct it is the one element that carries [s]. *)
Theorem process_lookup_top_level :
  forall (P : Process.t) (s : string),
    (Process.get_element_by_id P s = None
     <-> ~ In s (map Element_id (Process.get_all_elements P)))
    /\ Process.get_element_by_id P s
       = Spec.first_with_id (Process.get_all_elements P) s
    /\ (forall e, Process.get_element_by_id P s = Some e ->
                  In e (Process.get_all_elements P) /\ Element_id e = s)
    /\ (forall e, NoDup (map Element_id (Process.get_all_elements P)) ->
                  In e (Process.get_all_elements P) -> Element_id e = s ->
                  Process.get_element_by_id P s = Some e).
Proof.
  intros P s. unfold Process.get_element_by_id.
  split; [apply scan_None_iff|].
  split; [apply scan_first_with_id|].
  split; intros e; [apply scan_Some | apply scan_unique].
Qed.

(** In scenario D the ids are pairwise distinct and [t0] is found as the
    task that carries it. *)
Lemma process_lookup_witness :
  NoDup (map Element_id (Process.get_all_elements Scenario.process_D))
  /\ Process.get_element_by_id Scenario.process_D "t0"
     = Some (ATask Scenario.t0).
Proof.
  assert (ND : NoDup (map Element_id
                        (Process.get_all_elements Scenario.process_D))).
  { cbn. repeat constructor; cbn; intuition discriminate. }
  split; [exact ND|].
  apply (process_lookup_top_level Scenario.process_D "t0");
    [exact ND | cbn; auto | reflexivity].
Defined.

(** C3 as stated fails: the task, the sequence flow and the boundary event
    held by the sub-process [sp1] are under the scope of the process in the
    specification's reading, and the lookup finds none of them. *)
Lemma process_lookup_misses_nested :
  ~ (Process.get_element_by_id Scenario.process_nested "t1" = None
     <-> ~ In "t1" (Spec.process_scope_ids Scenario.process_nested)).
Proof.
  intros [H _]. apply H; [reflexivity|]. cbn. auto.
Qed.

(** The three nested ids, one by one. *)
Example process_lookup_nested_ids :
  Spec.process_scope_ids Scenario.process_nested = ["sp1"; "t1"; "f1"; "b1"]
  /\ Process.get_element_by_id Scenario.process_nested "t1" = None
  /\ Process.get_element_by_id Scenario.process_nested "f1" = None
  /\ Process.get_element_by_id Scenario.process_nested "b1" = None
  /\ Process.get_element_by_id Scenario.process_nested "sp1"
     = Some (ASubProcess Scenario.sp1).
Proof. repeat split. Qed.

(** C4, as the code has it. The diagram lookup returns the first element
    with id [s] in this order: the elements of each process (through the
    process lookup), then each pool followed by the lanes that pool holds
    directly, then the message flows, the global data stores and the global
    text annotations; no match exactly when that list has no such element.
    Lanes nested as child lanes are not in the list. *)
Theorem diagram_lookup_order :
  forall (d : BPMNDiagram.t) (s : string),
    BPMNDiagram.get_element_by_id d s
      = Spec.first_with_id (Spec.scan_order d) s
    /\ (BPMNDiagram.get_element_by_id d s = None
        <-> ~ In s (map Element_id (Spec.scan_order d)))
    /\ BPMNDiagram.search_processes (BPMNDiagram.processes d) s
       = Spec.first_with_id
           (flat_map Process.get_all_elements (BPMNDiagram.processes d)) s.
Proof.
  intros d s. rewrite diagram_lookup_scan.
  split; [apply scan_first_with_id|].
  split; [apply scan_None_iff|].
  rewrite search_processes_scan. apply scan_first_with_id.
Qed.

(** C4 as stated fails: with child lanes in the scan order the lane [l2]
    would be returned; the code returns no match. *)
Lemma diagram_lookup_misses_child_lane :
  BPMNDiagram.get_element_by_id Scenario.diagram_lanes "l2"
  <> Spec.first_with_id
       (Spec.scan_order_with_child_lanes Scenario.diagram_lanes) "l2".
Proof. cbn. discriminate. Qed.

Example diagram_lookup_child_lane_values :
  BPMNDiagram.get_element_by_id Scenario.diagram_lanes "l2" = None
  /\ Spec.first_with_id
       (Spec.scan_order_with_child_lanes Scenario.diagram_lanes) "l2"
     = Some (ALane Scenario.l2)
  /\ BPMNDiagram.get_element_by_id Scenario.diagram_lanes "l1"
     = Some (ALane Scenario.l1).
Proof. repeat split. Qed.

(** ** Loops that append *)

Lemma for_each_appends {A R : Type}
    (body : A -> list R -> list R) (g : A -> list R) :
  (forall x acc, body x acc = acc ++ g x) ->
  forall xs acc, for_each xs body acc = acc ++ flat_map g xs.
Proof.
  intros Hbody xs. unfold for_each.
  induction xs as [|x xs IH]; intros acc; cbn.
  - now rewrite app_nil_r.
  - now rewrite IH, Hbody, <- app_assoc.
Qed.

Lemma flat_map_map {A B C : Type} (f : B -> list C) (g : A -> B) (l : list A) :
  flat_map f (map g l) = flat_map (fun x => f (g x)) l.
Proof.
  induction l as [|x l IH]; cbn; [reflexivity | now rewrite IH].
Qed.

Lemma flat_map_nil {A B : Type} (l : list A) :
  flat_map (fun _ : A => @nil B) l = [].
Proof. induction l; cbn; auto. Qed.

Lemma truthy_filter {A : Type} (f : A -> bool) (l : list A) :
  truthy (filter f l) = existsb f l.
Proof.
  induction l as [|x l IH]; cbn; [reflexivity|].
  destruct (f x); cbn; [reflexivity | exact IH].
Qed.

(** ** The connectivity rule *)

Lemma check_flow_object_appends
    (p : Process.t) (o : FlowObject) (acc : list ValidationResult.t) :
  SequenceFlowRule.check_flow_object SequenceFlowRule.init p o acc
  = acc ++ Spec.object_findings p o.
Proof.
  unfold SequenceFlowRule.check_flow_object, incoming_of, outgoing_of.
  rewrite !truthy_filter.
  destruct o as [e | x | g | sp]; cbn [as_Event as_Task Spec.object_findings FlowObject_id].
  - unfold Spec.event_findings, Event.is_start_event, Event.is_end_event,
      Spec.has_incoming, Spec.has_outgoing, append_if.
    destruct (Event.event_type e); cbn [EventType_eqb];
      try (now rewrite app_nil_r);
      match goal with
      | |- context [if ?c then _ else _] => destruct c
      end; cbn; now rewrite ?app_nil_r.
  - unfold Spec.task_findings, Spec.has_incoming, Spec.has_outgoing, append_if.
    rewrite <- negb_orb.
    match goal with
    | |- context [negb ?c] => destruct c
    end; cbn; now rewrite ?app_nil_r.
  - now rewrite app_nil_r.
  - now rewrite app_nil_r.
Qed.

Lemma connectivity_of_process (p : Process.t) :
  flat_map (Spec.object_findings p) (Process.get_all_flow_objects p)
  = Spec.connectivity_findings p.
Proof.
  unfold Process.get_all_flow_objects, Spec.connectivity_findings.
  rewrite !flat_map_app, !flat_map_map. cbn [Spec.object_findings].
  now rewrite !flat_map_nil, !app_nil_r.
Qed.

Lemma sequence_flow_rule_by_process (d : BPMNDiagram.t) :
  SequenceFlowRule.validate SequenceFlowRule.init d
  = flat_map Spec.connectivity_findings (BPMNDiagram.processes d).
Proof.
  unfold SequenceFlowRule.validate.
  rewrite for_each_appends with (g := Spec.connectivity_findings);
    [reflexivity|].
  intros p acc.
  rewrite for_each_appends with (g := Spec.object_findings p).
  - now rewrite connectivity_of_process.
  - intros o acc'. apply check_flow_object_appends.
Qed.

(** C6. The findings of the sequence-flow rule are, process after process:
    for each event in turn, an error when it is a start event some sequence
    flow targets, or an end event some sequence flow leaves; then for each
    task in turn, a warning when no sequence flow targets or leaves it.
    Gateways and sub-processes add nothing, whatever their flows: the loop
    body leaves the findings as they are for them. *)
Theorem sequence_flow_rule_findings :
  forall d : BPMNDiagram.t,
    SequenceFlowRule.validate SequenceFlowRule.init d
      = flat_map Spec.connectivity_findings (BPMNDiagram.processes d)
    /\ (forall p g acc,
          SequenceFlowRule.check_flow_object
            SequenceFlowRule.init p (FGateway g) acc = acc)
    /\ (forall p sp acc,
          SequenceFlowRule.check_flow_object
            SequenceFlowRule.init p (FSubProcess sp) acc = acc).
Proof.
  intros d. split; [|split].
  - apply sequence_flow_rule_by_process.
  - intros p g acc. rewrite check_flow_object_appends. apply app_nil_r.
  - intros p sp acc. rewrite check_flow_object_appends. apply app_nil_r.
Qed.

(** ** The validator *)

Lemma ValidationSeverity_eqb_eq (a b : ValidationSeverity) :
  ValidationSeverity_eqb a b = true <-> a = b.
Proof. destruct a, b; cbn; split; (reflexivity || discriminate). Qed.

Lemma no_error_iff (l : list ValidationResult.t) :
  negb (existsb BPMNValidator.is_error l) = true
  <-> Forall (fun r => ValidationResult.severity r <> ERROR) l.
Proof.
  rewrite negb_true_iff. induction l as [|r l IH]; cbn.
  - split; [constructor | reflexivity].
  - rewrite orb_false_iff, IH. unfold BPMNValidator.is_error.
    split.
    + intros [Hr Hl]. constructor; [|exact Hl].
      intros E. apply ValidationSeverity_eqb_eq in E. congruence.
    + intros H. inversion H as [|? ? Hr Hl]; subst. split; [|exact Hl].
      destruct (ValidationSeverity_eqb (ValidationResult.severity r) ERROR) eqn:E;
        [|reflexivity].
      apply ValidationSeverity_eqb_eq in E. contradiction.
Qed.

Lemma run_rules_raised
    (rs : list ValidationRule.t) (d : BPMNDiagram.t)
    (buffer buffer' : list ValidationResult.t) (e : PyException) :
  BPMNValidator.run_rules rs d buffer = (Raised e, buffer') ->
  exists rule, In rule rs /\ rule_validate rule d = Raised e.
Proof.
  revert buffer. induction rs as [|r rs IH]; intros buffer; cbn.
  - discriminate.
  - destruct (rule_validate r d) as [found | e'] eqn:E.
    + intros H. destruct (IH _ H) as (rule & Hin & Hr). eauto.
    + intros [= <- <-]. eauto.
Qed.

(** The four built-in rules never raise: the buffer after them is the
    concatenation of their findings in list order. *)
Lemma run_builtin_rules (d : BPMNDiagram.t) :
  BPMNValidator.run_rules (BPMNValidator.rules (BPMNValidator.init d)) d []
  = (Returned tt,
     StartEventRule.validate StartEventRule.init d
     ++ EndEventRule.validate EndEventRule.init d
     ++ SequenceFlowRule.validate SequenceFlowRule.init d
     ++ GatewayRule.validate GatewayRule.init d).
Proof. cbn. now rewrite <- !app_assoc. Qed.

Lemma validate_builtin (d : BPMNDiagram.t) :
  BPMNValidator.validate (BPMNValidator.init d)
  = let found :=
      StartEventRule.validate StartEventRule.init d
      ++ EndEventRule.validate EndEventRule.init d
      ++ SequenceFlowRule.validate SequenceFlowRule.init d
      ++ GatewayRule.validate GatewayRule.init d in
    (Returned (negb (existsb BPMNValidator.is_error found)),
     BPMNValidator.mk d (BPMNValidator.rules (BPMNValidator.init d)) found).
Proof.
  unfold BPMNValidator.validate. now rewrite run_builtin_rules.
Qed.

(** C2. Whatever rules and old findings a validator holds, [validate()]
    either returns a boolean, which is [True] exactly when the findings it
    has just produced contain none of severity [error] (so findings that
    are all warnings or infos give [True]), or it raises what one of its
    rules raised. With the four built-in rules it always returns. *)
Theorem validate_true_iff_no_error :
  forall v : BPMNValidator.t,
    match BPMNValidator.validate v with
    | (Returned b, v') =>
        (b = true
         <-> Forall (fun r => ValidationResult.severity r <> ERROR)
                    (BPMNValidator.results v'))
        /\ (Forall (fun r => ValidationResult.severity r = WARNING
                             \/ ValidationResult.severity r = INFO)
                   (BPMNValidator.results v') -> b = true)
        /\ (b = false <-> BPMNValidator.has_errors v' = true)
    | (Raised e, _) =>
        exists rule, In rule (BPMNValidator.rules v)
                     /\ rule_validate rule (BPMNValidator.diagram v) = Raised e
    end
    /\ (forall d, exists b v',
          BPMNValidator.validate (BPMNValidator.init d) = (Returned b, v')).
Proof.
  intros v. split.
  - unfold BPMNValidator.validate.
    destruct (BPMNValidator.run_rules (BPMNValidator.rules v)
                (BPMNValidator.diagram v) []) as [status buffer] eqn:R.
    destruct status as [[] | e].
    + cbn [BPMNValidator.results]. split; [apply no_error_iff|]. split.
      * intros H. apply no_error_iff.
        eapply Forall_impl; [|exact H]. cbn. intros r [-> | ->]; discriminate.
      * unfold BPMNValidator.has_errors. cbn [BPMNValidator.results].
        now rewrite negb_false_iff.
    + eapply run_rules_raised; eassumption.
  - intros d. rewrite validate_builtin. cbn zeta. eauto.
Qed.

(** C8. A second [validate()] right after a first one gives the same
    outcome and the same findings, in the same order (hence the same
    multiset): the buffer is cleared first, and the diagram and the rules
    are those of the first run. *)
Theorem validate_twice_same_findings :
  forall v : BPMNValidator.t,
    let first := BPMNValidator.validate v in
    let second := BPMNValidator.validate (snd first) in
    fst second = fst first
    /\ BPMNValidator.results (snd second) = BPMNValidator.results (snd first)
    /\ Permutation (BPMNValidator.results (snd second))
                   (BPMNValidator.results (snd first))
    /\ BPMNValidator.diagram (snd first) = BPMNValidator.diagram v.
Proof.
  intros v first second.
  assert (Hsame : second = first).
  { subst first second. unfold BPMNValidator.validate.
    destruct (BPMNValidator.run_rules (BPMNValidator.rules v)
                (BPMNValidator.diagram v) []) as [status buffer] eqn:R.
    destruct status as [[] | e]; cbn [snd BPMNValidator.rules
      BPMNValidator.diagram]; now rewrite R. }
  rewrite Hsame. repeat split; [reflexivity|].
  subst first. unfold BPMNValidator.validate.
  destruct (BPMNValidator.run_rules (BPMNValidator.rules v)
              (BPMNValidator.diagram v) []) as [status buffer].
  now destruct status.
Qed.

(** ** Scenarios *)

Lemma for_each_one {A R : Type} (x : A) (body : A -> list R -> list R)
    (acc : list R) :
  for_each [x] body acc = body x acc.
Proof. reflexivity. Qed.

Lemma for_each_none {A R : Type} (body : A -> list R -> list R)
    (acc : list R) :
  for_each [] body acc = acc.
Proof. reflexivity. Qed.

Section OneProcess.
Variables (d : BPMNDiagram.t) (p : Process.t).
Hypothesis Hprocesses : BPMNDiagram.processes d = [p].

Lemma start_rule_no_events :
  Process.events p = [] ->
  StartEventRule.validate StartEventRule.init d
  = [ValidationResult.mk ERROR (Some (Process.id p)) (Some "Process")
       "Process must have at least one start event" "start_event_rule"].
Proof.
  intros He. unfold StartEventRule.validate, Process.get_start_events.
  now rewrite Hprocesses, for_each_one, He.
Qed.

Lemma end_rule_no_end_event :
  filter Event.is_end_event (Process.events p) = [] ->
  EndEventRule.validate EndEventRule.init d
  = [ValidationResult.mk WARNING (Some (Process.id p)) (Some "Process")
       "Process should have at least one end event" "end_event_rule"].
Proof.
  intros He. unfold EndEventRule.validate, Process.get_end_events.
  now rewrite Hprocesses, for_each_one, He.
Qed.

Lemma sequence_rule_one_process :
  SequenceFlowRule.validate SequenceFlowRule.init d
  = Spec.connectivity_findings p.
Proof.
  rewrite sequence_flow_rule_by_process, Hprocesses. cbn. apply app_nil_r.
Qed.
End OneProcess.

(** C1, as the code has it. One process, no flow object but a diverging
    gateway [g], one sequence flow [f] leaving [g]. The gateway rule gives
    exactly one warning, "Diverging gateway should have multiple outgoing
    flows" on [g]; the end-event rule adds a second warning, on the
    process. There are errors: the start-event rule reports the process,
    and the gateway rule reports [g] as having no incoming flow unless [f]
    also targets [g]. [validate()] returns [False]. *)
Theorem scenario_C_findings :
  forall (d : BPMNDiagram.t) (p : Process.t) (g : Gateway.t)
         (f : SequenceFlow.t),
    BPMNDiagram.processes d = [p] ->
    Process.events p = [] ->
    Process.tasks p = [] ->
    Process.gateways p = [g] ->
    Process.subprocesses p = [] ->
    Process.sequence_flows p = [f] ->
    Gateway.gateway_direction g = diverging ->
    SequenceFlow.source_ref f = Gateway.id g ->
    let diverging_warning :=
      ValidationResult.mk WARNING (Some (Gateway.id g)) (Some "Gateway")
        "Diverging gateway should have multiple outgoing flows"
        "gateway_rule" in
    let after := snd (BPMNValidator.validate (BPMNValidator.init d)) in
    fst (BPMNValidator.validate (BPMNValidator.init d)) = Returned false
    /\ filter BPMNValidator.is_warning
              (GatewayRule.validate GatewayRule.init d)
       = [diverging_warning]
    /\ BPMNValidator.get_warnings after
       = [ValidationResult.mk WARNING (Some (Process.id p)) (Some "Process")
            "Process should have at least one end event" "end_event_rule";
          diverging_warning]
    /\ BPMNValidator.get_errors after
       = ValidationResult.mk ERROR (Some (Process.id p)) (Some "Process")
           "Process must have at least one start event" "start_event_rule"
         :: (if String.eqb (SequenceFlow.target_ref f) (Gateway.id g)
             then []
             else [ValidationResult.mk ERROR (Some (Gateway.id g))
                     (Some "Gateway")
                     "Gateway must have at least one incoming sequence flow"
                     "gateway_rule"]).
Proof.
  intros d p g f Hd He Ht Hg Hs Hf Hdir Hsrc diverging_warning after.
  assert (HG : GatewayRule.validate GatewayRule.init d
               = (if String.eqb (SequenceFlow.target_ref f) (Gateway.id g)
                  then []
                  else [ValidationResult.mk ERROR (Some (Gateway.id g))
                          (Some "Gateway")
                          "Gateway must have at least one incoming sequence flow"
                          "gateway_rule"])
                 ++ [diverging_warning]).
  { unfold GatewayRule.validate.
    rewrite Hd, for_each_one, Hg, for_each_one.
    unfold GatewayRule.check_gateway, incoming_of, outgoing_of,
      Gateway.is_diverging, Gateway.is_converging.
    rewrite Hf, Hdir. cbn [filter]. rewrite Hsrc, String.eqb_refl.
    destruct (String.eqb (SequenceFlow.target_ref f) (Gateway.id g));
      reflexivity. }
  subst after. rewrite validate_builtin. cbn zeta.
  unfold BPMNValidator.get_errors, BPMNValidator.get_warnings.
  cbn [fst snd BPMNValidator.results].
  rewrite (@start_rule_no_events d p Hd He).
  rewrite (@end_rule_no_end_event d p Hd) by (now rewrite He).
  rewrite (@sequence_rule_one_process d p Hd).
  unfold Spec.connectivity_findings. rewrite He, Ht, HG.
  destruct (String.eqb (SequenceFlow.target_ref f) (Gateway.id g));
    repeat split.
Qed.

(** The scenario with the ids of the specification: two errors and two
    warnings. *)
Lemma scenario_C_witness :
  List.length
    (BPMNValidator.get_warnings
       (snd (BPMNValidator.validate (BPMNValidator.init Scenario.diagram_C))))
  = 2
  /\ List.length
       (BPMNValidator.get_errors
          (snd (BPMNValidator.validate (BPMNValidator.init Scenario.diagram_C))))
     = 2.
Proof.
  destruct (@scenario_C_findings Scenario.diagram_C Scenario.process_C
              Scenario.g1 Scenario.flow_C
              eq_refl eq_refl eq_refl eq_refl eq_refl eq_refl eq_refl eq_refl)
    as (_ & _ & Hw & He).
  rewrite Hw, He. split; reflexivity.
Defined.

(** C1 as stated fails, whether the one flow leaves the process's flow
    objects or leads back into [g1]: never one warning and no error. *)
Lemma scenario_C_counterexample :
  ~ (List.length
       (BPMNValidator.get_warnings
          (snd (BPMNValidator.validate
                  (BPMNValidator.init Scenario.diagram_C)))) = 1
     /\ List.length
          (BPMNValidator.get_errors
             (snd (BPMNValidator.validate
                     (BPMNValidator.init Scenario.diagram_C)))) = 0)
  /\
  ~ (List.length
       (BPMNValidator.get_warnings
          (snd (BPMNValidator.validate
                  (BPMNValidator.init Scenario.diagram_C_loop)))) = 1
     /\ List.length
          (BPMNValidator.get_errors
             (snd (BPMNValidator.validate
                     (BPMNValidator.init Scenario.diagram_C_loop)))) = 0).
Proof. split; cbn; intros [H _]; discriminate H. Qed.

(** The findings of the two variants, in the order the rules produce
    them. *)
Example scenario_C_all_findings :
  map (fun r => (ValidationResult.severity r, ValidationResult.rule_name r))
      (BPMNValidator.results
         (snd (BPMNValidator.validate (BPMNValidator.init Scenario.diagram_C))))
  = [(ERROR, "start_event_rule"); (WARNING, "end_event_rule");
     (ERROR, "gateway_rule"); (WARNING, "gateway_rule")]
  /\
  map (fun r => (ValidationResult.severity r, ValidationResult.rule_name r))
      (BPMNValidator.results
         (snd (BPMNValidator.validate
                 (BPMNValidator.init Scenario.diagram_C_loop))))
  = [(ERROR, "start_event_rule"); (WARNING, "end_event_rule");
     (WARNING, "gateway_rule")].
Proof. split; reflexivity. Qed.

(** C7. One process with a start event [e], a task [t] and one sequence
    flow from [t] to [e], and no other flow object. [validate()] produces
    exactly one finding of severity error: it names [e] and comes from the
    sequence-flow rule. (The only other finding is the end-event
    warning.) *)
Theorem scenario_D_single_error :
  forall (d : BPMNDiagram.t) (p : Process.t) (e : Event.t) (x : Task.t)
         (f : SequenceFlow.t),
    BPMNDiagram.processes d = [p] ->
    Process.events p = [e] ->
    Process.tasks p = [x] ->
    Process.gateways p = [] ->
    Process.subprocesses p = [] ->
    Process.sequence_flows p = [f] ->
    Event.event_type e = START ->
    SequenceFlow.source_ref f = Task.id x ->
    SequenceFlow.target_ref f = Event.id e ->
    let after := snd (BPMNValidator.validate (BPMNValidator.init d)) in
    BPMNValidator.get_errors after
      = [ValidationResult.mk ERROR (Some (Event.id e)) (Some "StartEvent")
           "Start events cannot have incoming sequence flows"
           "sequence_flow_rule"]
    /\ SequenceFlowRule.validate SequenceFlowRule.init d
       = BPMNValidator.get_errors after
    /\ fst (BPMNValidator.validate (BPMNValidator.init d)) = Returned false
    /\ BPMNValidator.get_warnings after
       = [ValidationResult.mk WARNING (Some (Process.id p)) (Some "Process")
            "Process should have at least one end event" "end_event_rule"].
Proof.
  intros d p e x f Hd He Ht Hg Hs Hf Hty Hsrc Htgt after.
  assert (HS : StartEventRule.validate StartEventRule.init d = []).
  { unfold StartEventRule.validate, Process.get_start_events,
      Event.is_start_event.
    now rewrite Hd, for_each_one, He; cbn [filter]; rewrite Hty. }
  assert (HE : filter Event.is_end_event (Process.events p) = []).
  { unfold Event.is_end_event. now rewrite He; cbn [filter]; rewrite Hty. }
  assert (HQ : SequenceFlowRule.validate SequenceFlowRule.init d
               = [ValidationResult.mk ERROR (Some (Event.id e))
                    (Some "StartEvent")
                    "Start events cannot have incoming sequence flows"
                    "sequence_flow_rule"]).
  { rewrite (@sequence_rule_one_process d p Hd).
    unfold Spec.connectivity_findings, Spec.event_findings,
      Spec.task_findings, Spec.has_incoming, Spec.has_outgoing.
    rewrite He, Ht, Hf. cbn [flat_map existsb]. rewrite Hty, Hsrc, Htgt.
    rewrite !String.eqb_refl. cbn. now rewrite orb_true_r. }
  assert (HG : GatewayRule.validate GatewayRule.init d = []).
  { unfold GatewayRule.validate. now rewrite Hd, for_each_one, Hg. }
  subst after. rewrite validate_builtin. cbn zeta.
  unfold BPMNValidator.get_errors, BPMNValidator.get_warnings.
  cbn [fst snd BPMNValidator.results].
  rewrite HS, (@end_rule_no_end_event d p Hd HE), HQ, HG.
  repeat split.
Qed.

Lemma scenario_D_witness :
  BPMNValidator.get_errors
    (snd (BPMNValidator.validate (BPMNValidator.init Scenario.diagram_D)))
  = [ValidationResult.mk ERROR (Some "s1") (Some "StartEvent")
       "Start events cannot have incoming sequence flows"
       "sequence_flow_rule"].
Proof.
  exact (proj1 (@scenario_D_single_error Scenario.diagram_D Scenario.process_D
                  Scenario.s1 Scenario.t0 Scenario.flow_D
                  eq_refl eq_refl eq_refl eq_refl eq_refl eq_refl
                  eq_refl eq_refl eq_refl)).
Defined.

(** * Further properties of the element classes *)

(** ** Membership tests and removal on lists of ids *)

Lemma str_in_iff (s : string) (l : list string) :
  str_in s l = true <-> In s l.
Proof.
  unfold str_in. rewrite existsb_exists. split.
  - intros (x & Hx & E). apply String.eqb_eq in E. now subst.
  - intros H. exists s. split; [exact H | apply String.eqb_refl].
Qed.

Lemma str_in_false_iff (s : string) (l : list string) :
  str_in s l = false <-> ~ In s l.
Proof.
  rewrite <- str_in_iff. destruct (str_in s l); split; congruence.
Qed.

Lemma NoDup_snoc (s : string) (l : list string) :
  NoDup l -> ~ In s l -> NoDup (l ++ [s]).
Proof.
  intros ND Hs. induction ND as [|x l Hx ND IH]; cbn.
  - constructor; [tauto | constructor].
  - constructor.
    + rewrite in_app_iff. cbn. intros [H | [H | []]]; [tauto|].
      subst. apply Hs. now left.
    + apply IH. intros H. apply Hs. now right.
Qed.

Lemma list_remove_snoc (s : string) (l : list string) :
  ~ In s l -> list_remove s (l ++ [s]) = l.
Proof.
  induction l as [|x l IH]; cbn; intros H.
  - now rewrite String.eqb_refl.
  - destruct (String.eqb x s) eqn:E.
    + apply String.eqb_eq in E. tauto.
    + rewrite IH; tauto.
Qed.

Lemma list_remove_first (s : string) (before after : list string) :
  ~ In s before ->
  list_remove s (before ++ s :: after) = before ++ after.
Proof.
  induction before as [|x before IH]; cbn; intros H.
  - now rewrite String.eqb_refl.
  - destruct (String.eqb x s) eqn:E.
    + apply String.eqb_eq in E. tauto.
    + rewrite IH; tauto.
Qed.

Lemma list_remove_count_same (s : string) (l : list string) :
  In s l ->
  S (count_occ string_dec (list_remove s l) s) = count_occ string_dec l s.
Proof.
  induction l as [|x l IH]; cbn; [tauto|].
  intros H. destruct (String.eqb x s) eqn:E.
  - apply String.eqb_eq in E. destruct (string_dec x s); congruence.
  - apply String.eqb_neq in E. cbn.
    destruct (string_dec x s); [congruence|].
    apply IH. destruct H; congruence.
Qed.

Lemma list_remove_count_other (s m : string) (l : list string) :
  m <> s ->
  count_occ string_dec (list_remove s l) m = count_occ string_dec l m.
Proof.
  intros Hm. induction l as [|x l IH]; cbn; [reflexivity|].
  destruct (String.eqb x s) eqn:E.
  - apply String.eqb_eq in E. destruct (string_dec x m); congruence.
  - cbn. now rewrite IH.
Qed.

(** ** Lanes *)

Lemma Lane_eta (l : Lane.t) :
  Lane.mk (Lane.base l) (Lane.flow_node_refs l) (Lane.child_lanes l)
          (Lane.partition_element_ref l) = l.
Proof. now destruct l. Qed.

(** X1. [Lane.add_flow_node] never stores a reference twice: the
    reference is in the lane afterwards, a lane that already has it is
    returned as it is (so a second call changes nothing), a new reference
    goes to the end, and references that were pairwise distinct stay
    so. Child lanes are not touched. *)
Theorem lane_add_flow_node_no_duplicate :
  forall (l : Lane.t) (n : string),
    In n (Lane.flow_node_refs (Lane.add_flow_node l n))
    /\ (In n (Lane.flow_node_refs l) -> Lane.add_flow_node l n = l)
    /\ (~ In n (Lane.flow_node_refs l) ->
        Lane.flow_node_refs (Lane.add_flow_node l n)
        = Lane.flow_node_refs l ++ [n])
    /\ Lane.add_flow_node (Lane.add_flow_node l n) n = Lane.add_flow_node l n
    /\ (NoDup (Lane.flow_node_refs l) ->
        NoDup (Lane.flow_node_refs (Lane.add_flow_node l n)))
    /\ Lane.child_lanes (Lane.add_flow_node l n) = Lane.child_lanes l.
Proof.
  intros l n. unfold Lane.add_flow_node.
  destruct (str_in n (Lane.flow_node_refs l)) eqn:E; cbn [negb].
  - pose proof (proj1 (str_in_iff _ _) E) as Hin.
    rewrite E. cbn [negb]. repeat split; auto. tauto.
  - pose proof (proj1 (str_in_false_iff _ _) E) as Hout.
    cbn [Lane.flow_node_refs Lane.child_lanes].
    assert (Hnow : str_in n (Lane.flow_node_refs l ++ [n]) = true).
    { apply str_in_iff, in_app_iff. right. now left. }
    rewrite Hnow. cbn [negb].
    repeat split; auto.
    + apply in_app_iff. right. now left.
    + tauto.
    + intros ND. now apply NoDup_snoc.
Qed.

(** X2. [Lane.remove_flow_node] removes one occurrence of the reference,
    the first, and nothing else: when the references are [before], then
    the reference, then [after], with the reference not in [before], they
    are [before] followed by [after] afterwards, in that order, and the
    child lanes and the other fields are untouched. The lane is unchanged
    when the reference is absent; every other reference keeps its number
    of occurrences, and the reference itself loses exactly one. Removing
    a reference that was just added to a lane that did not have it gives
    the lane back; when the references were pairwise distinct the removed
    one is gone. *)
Theorem lane_remove_flow_node_first_occurrence :
  forall (l : Lane.t) (n : string),
    (forall before after,
        Lane.flow_node_refs l = before ++ n :: after ->
        ~ In n before ->
        Lane.remove_flow_node l n
        = Lane.mk (Lane.base l) (before ++ after) (Lane.child_lanes l)
                  (Lane.partition_element_ref l))
    /\ (~ In n (Lane.flow_node_refs l) -> Lane.remove_flow_node l n = l)
    /\ (In n (Lane.flow_node_refs l) ->
        S (count_occ string_dec
             (Lane.flow_node_refs (Lane.remove_flow_node l n)) n)
        = count_occ string_dec (Lane.flow_node_refs l) n)
    /\ (forall m, m <> n ->
        count_occ string_dec
          (Lane.flow_node_refs (Lane.remove_flow_node l n)) m
        = count_occ string_dec (Lane.flow_node_refs l) m)
    /\ (~ In n (Lane.flow_node_refs l) ->
        Lane.remove_flow_node (Lane.add_flow_node l n) n = l)
    /\ (NoDup (Lane.flow_node_refs l) ->
        ~ In n (Lane.flow_node_refs (Lane.remove_flow_node l n))).
Proof.
  intros l n. unfold Lane.remove_flow_node.
  split; [|split; [|split; [|split; [|split]]]].
  - intros before after Hrefs Hbefore.
    assert (Hin : str_in n (Lane.flow_node_refs l) = true).
    { apply str_in_iff. rewrite Hrefs. apply in_app_iff. right. now left. }
    rewrite Hin, Hrefs. now rewrite list_remove_first.
  - intros H. apply str_in_false_iff in H. now rewrite H.
  - intros H. pose proof (proj2 (str_in_iff _ _) H) as E. rewrite E.
    cbn [Lane.flow_node_refs]. now apply list_remove_count_same.
  - intros m Hm. destruct (str_in n (Lane.flow_node_refs l)); [|reflexivity].
    cbn [Lane.flow_node_refs]. now apply list_remove_count_other.
  - intros H. unfold Lane.add_flow_node.
    rewrite (proj2 (str_in_false_iff _ _) H). cbn [negb Lane.flow_node_refs].
    assert (Hnow : str_in n (Lane.flow_node_refs l ++ [n]) = true).
    { apply str_in_iff, in_app_iff. right. now left. }
    rewrite Hnow. cbn [Lane.base Lane.child_lanes Lane.partition_element_ref].
    rewrite list_remove_snoc by exact H. apply Lane_eta.
  - intros ND Hin.
    destruct (str_in n (Lane.flow_node_refs l)) eqn:E.
    + cbn [Lane.flow_node_refs] in Hin.
      pose proof (proj1 (str_in_iff _ _) E) as Hwas.
      pose proof (list_remove_count_same n _ Hwas) as Hc.
      apply (count_occ_In string_dec) in Hin.
      rewrite (proj1 (NoDup_count_occ' string_dec _) ND n Hwas) in Hc. lia.
    + apply str_in_false_iff in E. contradiction.
Qed.

(** The first occurrence only: a lane built with a repeated reference
    still has it after one removal. *)
Example lane_remove_leaves_later_copy :
  Lane.flow_node_refs
    (Lane.remove_flow_node
       (Lane.mk (BPMNElement.init LANE "l") ["a"; "b"; "a"] [] None) "a")
  = ["b"; "a"].
Proof. reflexivity. Qed.

Lemma lane_all_nodes_descendants (l : Lane.t) :
  Lane.get_all_flow_nodes l
  = flat_map Lane.flow_node_refs (Spec.lane_and_descendants l).
Proof.
  revert l. fix IH 1. intros [b refs children p].
  cbn. f_equal.
  induction children as [|c cs IHcs]; [reflexivity|].
  rewrite flat_map_app, <- IHcs, <- IH. reflexivity.
Qed.

(** X3. [Lane.get_all_flow_nodes] walks the whole lane tree: it returns
    the references of the lane, then those of each lane below it, parents
    before children and siblings in order. A reference is returned exactly
    when some lane of the tree holds it; [has_flow_nodes], which looks at
    the lane alone, implies a non-empty result but not the converse. *)
Theorem lane_get_all_flow_nodes_tree :
  forall l : Lane.t,
    Lane.get_all_flow_nodes l
      = flat_map Lane.flow_node_refs (Spec.lane_and_descendants l)
    /\ (forall n,
          In n (Lane.get_all_flow_nodes l)
          <-> exists lane, In lane (Spec.lane_and_descendants l)
                           /\ In n (Lane.flow_node_refs lane))
    /\ (Lane.has_flow_nodes l = true -> Lane.get_all_flow_nodes l <> []).
Proof.
  intros l. split; [apply lane_all_nodes_descendants|]. split.
  - intros n. rewrite lane_all_nodes_descendants. apply in_flat_map.
  - destruct l as [b refs children p].
    unfold Lane.has_flow_nodes. cbn.
    destruct refs; cbn; [discriminate | discriminate].
Qed.

(** A lane whose references all sit in a child lane: [has_flow_nodes]
    is false and [get_all_flow_nodes] is not empty. *)
Example lane_nodes_only_below :
  Lane.has_flow_nodes
    (Lane.add_child_lane (Lane.init "l1")
       (Lane.add_flow_node (Lane.init "l2") "n1")) = false
  /\ Lane.get_all_flow_nodes
       (Lane.add_child_lane (Lane.init "l1")
          (Lane.add_flow_node (Lane.init "l2") "n1")) = ["n1"].
Proof. split; reflexivity. Qed.

(** ** Candidate groups and users of a task *)

(** X4. [Task.add_candidate_group] and [Task.add_candidate_user] keep
    their list free of repetitions: the id is in the list afterwards, a
    task that already lists it is returned as it is, a new id goes to the
    end, pairwise distinct ids stay so, and neither method touches the
    other list. *)
Theorem task_candidates_no_duplicate :
  forall (x : Task.t) (i : string),
    (In i (Task.candidate_groups (Task.add_candidate_group x i))
     /\ (In i (Task.candidate_groups x) -> Task.add_candidate_group x i = x)
     /\ (~ In i (Task.candidate_groups x) ->
         Task.candidate_groups (Task.add_candidate_group x i)
         = Task.candidate_groups x ++ [i])
     /\ (NoDup (Task.candidate_groups x) ->
         NoDup (Task.candidate_groups (Task.add_candidate_group x i)))
     /\ Task.candidate_users (Task.add_candidate_group x i)
        = Task.candidate_users x)
    /\
    (In i (Task.candidate_users (Task.add_candidate_user x i))
     /\ (In i (Task.candidate_users x) -> Task.add_candidate_user x i = x)
     /\ (~ In i (Task.candidate_users x) ->
         Task.candidate_users (Task.add_candidate_user x i)
         = Task.candidate_users x ++ [i])
     /\ (NoDup (Task.candidate_users x) ->
         NoDup (Task.candidate_users (Task.add_candidate_user x i)))
     /\ Task.candidate_groups (Task.add_candidate_user x i)
        = Task.candidate_groups x).
Proof.
  intros x i. split.
  - unfold Task.add_candidate_group.
    destruct (str_in i (Task.candidate_groups x)) eqn:E; cbn [negb].
    + pose proof (proj1 (str_in_iff _ _) E). repeat split; auto. tauto.
    + pose proof (proj1 (str_in_false_iff _ _) E).
      cbn [Task.candidate_groups Task.candidate_users Task.with_candidates].
      repeat split; auto.
      * apply in_app_iff. right. now left.
      * tauto.
      * intros ND. now apply NoDup_snoc.
  - unfold Task.add_candidate_user.
    destruct (str_in i (Task.candidate_users x)) eqn:E; cbn [negb].
    + pose proof (proj1 (str_in_iff _ _) E). repeat split; auto. tauto.
    + pose proof (proj1 (str_in_false_iff _ _) E).
      cbn [Task.candidate_groups Task.candidate_users Task.with_candidates].
      repeat split; auto.
      * apply in_app_iff. right. now left.
      * tauto.
      * intros ND. now apply NoDup_snoc.
Qed.

(** ** Gateways: process instantiation and direction *)

Lemma is_event_based_iff (g : Gateway.t) :
  Gateway.is_event_based g = true
  <-> Gateway.gateway_type g = EVENT_BASED
      \/ Gateway.gateway_type g = EXCLUSIVE_EVENT_BASED
      \/ Gateway.gateway_type g = PARALLEL_EVENT_BASED.
Proof.
  unfold Gateway.is_event_based. cbn [existsb].
  rewrite !orb_true_iff, !GatewayType_eqb_eq. intuition congruence.
Qed.

(** X5. [Gateway.enable_process_instantiation] has exactly two
    behaviours. For the three event-based kinds it returns and the gateway
    afterwards differs only in [instantiate], which is [True]. For every
    other kind it raises [ValueError] and leaves the gateway as it was. *)
Theorem enable_process_instantiation_contract :
  forall g : Gateway.t,
    ((Gateway.gateway_type g = EVENT_BASED
      \/ Gateway.gateway_type g = EXCLUSIVE_EVENT_BASED
      \/ Gateway.gateway_type g = PARALLEL_EVENT_BASED)
     /\ Gateway.enable_process_instantiation g
        = (Returned tt, Gateway.with_instantiate g true)
     /\ Gateway.instantiate (snd (Gateway.enable_process_instantiation g))
        = true)
    \/
    (~ (Gateway.gateway_type g = EVENT_BASED
        \/ Gateway.gateway_type g = EXCLUSIVE_EVENT_BASED
        \/ Gateway.gateway_type g = PARALLEL_EVENT_BASED)
     /\ Gateway.enable_process_instantiation g
        = (Raised (ValueError
             "Process instantiation only supported for event-based gateways"),
           g)).
Proof.
  intros g. unfold Gateway.enable_process_instantiation.
  destruct (Gateway.is_event_based g) eqn:K.
  - left. apply is_event_based_iff in K. repeat split; assumption.
  - right. split; [|reflexivity].
    intros H. apply is_event_based_iff in H. congruence.
Qed.

(** X6. No gateway accepts both a default flow and process
    instantiation: whenever [set_default_flow] returns,
    [enable_process_instantiation] raises, and the other way round.
    Parallel and complex gateways accept neither. *)
Theorem default_flow_excludes_instantiation :
  forall (g : Gateway.t) (f : string),
    ~ (fst (Gateway.set_default_flow g f) = Returned tt
       /\ fst (Gateway.enable_process_instantiation g) = Returned tt)
    /\ (Gateway.gateway_type g = PARALLEL \/ Gateway.gateway_type g = COMPLEX ->
        fst (Gateway.set_default_flow g f) <> Returned tt
        /\ fst (Gateway.enable_process_instantiation g) <> Returned tt
        /\ snd (Gateway.set_default_flow g f) = g
        /\ snd (Gateway.enable_process_instantiation g) = g).
Proof.
  intros g f.
  unfold Gateway.set_default_flow, Gateway.enable_process_instantiation,
    Gateway.is_exclusive, Gateway.is_inclusive, Gateway.is_event_based.
  destruct (Gateway.gateway_type g); cbn; split;
    try (intros [H1 H2]; discriminate);
    try (intros [H | H]; discriminate);
    intros _; repeat split; discriminate.
Qed.

(** ** Event triggers *)

(** Each trigger setter of [Event] replaces both the definition and
    the payload: afterwards the event has a trigger, only the predicate of
    that setter holds among timer, message, error and signal, the payload
    is the one just given, and the phase of the event is what it was. A
    later setter overwrites an earlier one completely. *)
Theorem event_trigger_setters_overwrite :
  forall (e : Event.t) (a b : string),
    (let e' := Event.set_timer_trigger e a in
     Event.has_trigger e' = true /\ Event.trigger e' = Some a
     /\ Event.is_timer_event e' = true /\ Event.is_message_event e' = false
     /\ Event.is_error_event e' = false /\ Event.is_signal_event e' = false
     /\ Event.event_type e' = Event.event_type e)
    /\
    (let e' := Event.set_message_trigger e a in
     Event.has_trigger e' = true /\ Event.trigger e' = Some a
     /\ Event.is_timer_event e' = false /\ Event.is_message_event e' = true
     /\ Event.is_error_event e' = false /\ Event.is_signal_event e' = false
     /\ Event.event_type e' = Event.event_type e)
    /\
    (let e' := Event.set_error_trigger e a in
     Event.has_trigger e' = true /\ Event.trigger e' = Some a
     /\ Event.is_timer_event e' = false /\ Event.is_message_event e' = false
     /\ Event.is_error_event e' = true /\ Event.is_signal_event e' = false
     /\ Event.event_type e' = Event.event_type e)
    /\
    (let e' := Event.set_signal_trigger e a in
     Event.has_trigger e' = true /\ Event.trigger e' = Some a
     /\ Event.is_timer_event e' = false /\ Event.is_message_event e' = false
     /\ Event.is_error_event e' = false /\ Event.is_signal_event e' = true
     /\ Event.event_type e' = Event.event_type e)
    /\
    (forall d1 d2,
       Event.configure_trigger d2 (Event.configure_trigger d1 e a) b
       = Event.configure_trigger d2 e b)
    /\ Event.set_message_trigger (Event.set_timer_trigger e a) b
       = Event.set_message_trigger e b.
Proof.
  intros e a b. repeat split.
Qed.

(** * Further properties of the containers *)

(** ** Insertion into a process *)

Lemma insertion_here {A : Type} (l r : list A) (e : A) :
  exists l1 l2, l ++ r = l1 ++ l2 /\ (l ++ [e]) ++ r = l1 ++ e :: l2.
Proof. exists l, r. split; [reflexivity | now rewrite <- app_assoc]. Qed.

Lemma insertion_last {A : Type} (l : list A) (e : A) :
  exists l1 l2, l = l1 ++ l2 /\ l ++ [e] = l1 ++ e :: l2.
Proof. exists l, []. split; [now rewrite app_nil_r | reflexivity]. Qed.

Lemma insertion_skip {A : Type} (a x y : list A) (e : A) :
  (exists l1 l2, x = l1 ++ l2 /\ y = l1 ++ e :: l2) ->
  exists l1 l2, a ++ x = l1 ++ l2 /\ a ++ y = l1 ++ e :: l2.
Proof.
  intros (l1 & l2 & -> & ->). exists (a ++ l1), l2.
  now rewrite !app_assoc.
Qed.

Ltac find_insertion :=
  first [ apply insertion_here
        | apply insertion_last
        | apply insertion_skip; find_insertion ].

Ltac unfold_collections :=
  unfold Process.get_all_elements;
  cbn [Process.with_collections Process.events Process.tasks
       Process.gateways Process.subprocesses Process.sequence_flows
       Process.associations Process.data_objects Process.data_stores
       Process.groups Process.text_annotations Process.lanes];
  rewrite map_app; cbn [map].

Lemma add_flow_object_shape (P P' : Process.t) (el : Element) :
  Process.add_flow_object P el = (Returned tt, P') ->
  exists l1 l2, Process.get_all_elements P = l1 ++ l2
                /\ Process.get_all_elements P' = l1 ++ el :: l2.
Proof.
  destruct el; cbn; intros E; inversion E; subst; clear E;
    unfold_collections; find_insertion.
Qed.

Lemma add_connecting_object_shape (P P' : Process.t) (el : Element) :
  Process.add_connecting_object P el = (Returned tt, P') ->
  exists l1 l2, Process.get_all_elements P = l1 ++ l2
                /\ Process.get_all_elements P' = l1 ++ el :: l2.
Proof.
  destruct el; cbn; intros E; inversion E; subst; clear E;
    unfold_collections; find_insertion.
Qed.

Lemma add_artifact_shape (P P' : Process.t) (el : Element) :
  Process.add_artifact P el = (Returned tt, P') ->
  exists l1 l2, Process.get_all_elements P = l1 ++ l2
                /\ Process.get_all_elements P' = l1 ++ el :: l2.
Proof.
  destruct el; cbn; intros E; inversion E; subst; clear E;
    unfold_collections; find_insertion.
Qed.

Lemma add_lane_shape (P : Process.t) (lane : Lane.t) :
  exists l1 l2, Process.get_all_elements P = l1 ++ l2
                /\ Process.get_all_elements (Process.add_lane P lane)
                   = l1 ++ ALane lane :: l2.
Proof. unfold Process.add_lane. unfold_collections. find_insertion. Qed.

Lemma scan_insert_other (s : string) (l1 l2 : list Element) (e : Element) :
  Element_id e <> s ->
  Process.scan (l1 ++ e :: l2) s = Process.scan (l1 ++ l2) s.
Proof.
  intros H. rewrite !scan_app. cbn.
  apply String.eqb_neq in H. now rewrite H.
Qed.

Lemma scan_insert_found (l1 l2 : list Element) (e : Element) :
  exists e', Process.scan (l1 ++ e :: l2) (Element_id e) = Some e'
             /\ Element_id e' = Element_id e
             /\ (Process.scan (l1 ++ l2) (Element_id e) = None -> e' = e).
Proof.
  rewrite !scan_app. cbn. rewrite String.eqb_refl.
  destruct (Process.scan l1 (Element_id e)) as [x|] eqn:E; cbn.
  - exists x. split; [reflexivity|]. split; [|discriminate].
    now apply scan_Some in E.
  - exists e. auto.
Qed.

Lemma successful_insertion_shape (P P' : Process.t) (el : Element) :
  Process.add_flow_object P el = (Returned tt, P')
  \/ Process.add_connecting_object P el = (Returned tt, P')
  \/ Process.add_artifact P el = (Returned tt, P')
  \/ (exists lane, el = ALane lane /\ P' = Process.add_lane P lane) ->
  exists l1 l2, Process.get_all_elements P = l1 ++ l2
                /\ Process.get_all_elements P' = l1 ++ el :: l2.
Proof.
  intros [H | [H | [H | (lane & -> & ->)]]].
  - now apply add_flow_object_shape.
  - now apply add_connecting_object_shape.
  - now apply add_artifact_shape.
  - apply add_lane_shape.
Qed.

Ltac appended_by_computation :=
  unfold Kind.appended_to; cbn; rewrite ?app_nil_r; repeat split.

Lemma add_flow_object_appends (P : Process.t) (el : Element) :
  Kind.is_flow_object el = true ->
  Kind.appended_to P (snd (Process.add_flow_object P el)) el.
Proof.
  intros K. destruct el; try discriminate K; appended_by_computation.
Qed.

Lemma add_connecting_object_appends (P : Process.t) (el : Element) :
  Kind.is_connecting_object el = true ->
  Kind.appended_to P (snd (Process.add_connecting_object P el)) el.
Proof.
  intros K. destruct el; try discriminate K; appended_by_computation.
Qed.

Lemma add_artifact_appends (P : Process.t) (el : Element) :
  Kind.is_artifact el = true ->
  Kind.appended_to P (snd (Process.add_artifact P el)) el.
Proof.
  intros K. destruct el; try discriminate K; appended_by_computation.
Qed.

(** X7. The three typed insertions of [Process] dispatch on the class of
    the argument. An element of an accepted class (task, event, gateway,
    sub-process for [add_flow_object]; sequence flow, association for
    [add_connecting_object]; the four artifact classes for [add_artifact])
    is appended to the collection of its class: that collection is the old
    one followed by the element, every other collection and field of the
    process is what it was, and so [get_all_elements()] is the old list
    with the element inserted at one position. Any other element makes
    the call raise [ValueError] with the class in the message, and the
    process is left as it was. *)
Theorem process_typed_insertion_dispatch :
  forall (P : Process.t) (el : Element),
    ((Kind.is_flow_object el = true
      /\ fst (Process.add_flow_object P el) = Returned tt
      /\ Kind.appended_to P (snd (Process.add_flow_object P el)) el
      /\ exists l1 l2,
           Process.get_all_elements P = l1 ++ l2
           /\ Process.get_all_elements (snd (Process.add_flow_object P el))
              = l1 ++ el :: l2)
     \/ (Kind.is_flow_object el = false
         /\ Process.add_flow_object P el
            = (Raised (ValueError
                 ("Invalid flow object type: " ++ Element_type_str el)), P)))
    /\
    ((Kind.is_connecting_object el = true
      /\ fst (Process.add_connecting_object P el) = Returned tt
      /\ Kind.appended_to P (snd (Process.add_connecting_object P el)) el
      /\ exists l1 l2,
           Process.get_all_elements P = l1 ++ l2
           /\ Process.get_all_elements
                (snd (Process.add_connecting_object P el))
              = l1 ++ el :: l2)
     \/ (Kind.is_connecting_object el = false
         /\ Process.add_connecting_object P el
            = (Raised (ValueError
                 ("Invalid connecting object type: "
                    ++ Element_type_str el)), P)))
    /\
    ((Kind.is_artifact el = true
      /\ fst (Process.add_artifact P el) = Returned tt
      /\ Kind.appended_to P (snd (Process.add_artifact P el)) el
      /\ exists l1 l2,
           Process.get_all_elements P = l1 ++ l2
           /\ Process.get_all_elements (snd (Process.add_artifact P el))
              = l1 ++ el :: l2)
     \/ (Kind.is_artifact el = false
         /\ Process.add_artifact P el
            = (Raised (ValueError
                 ("Invalid artifact type: " ++ Element_type_str el)), P))).
Proof.
  intros P el. split; [|split].
  - destruct (Kind.is_flow_object el) eqn:K.
    + left. split; [reflexivity|].
      assert (E : fst (Process.add_flow_object P el) = Returned tt)
        by (destruct el; (reflexivity || discriminate K)).
      split; [exact E|].
      split; [now apply add_flow_object_appends|].
      apply add_flow_object_shape.
      destruct (Process.add_flow_object P el); cbn in *. now subst.
    + right. split; [reflexivity|].
      destruct el; (reflexivity || discriminate K).
  - destruct (Kind.is_connecting_object el) eqn:K.
    + left. split; [reflexivity|].
      assert (E : fst (Process.add_connecting_object P el) = Returned tt)
        by (destruct el; (reflexivity || discriminate K)).
      split; [exact E|].
      split; [now apply add_connecting_object_appends|].
      apply add_connecting_object_shape.
      destruct (Process.add_connecting_object P el); cbn in *. now subst.
    + right. split; [reflexivity|].
      destruct el; (reflexivity || discriminate K).
  - destruct (Kind.is_artifact el) eqn:K.
    + left. split; [reflexivity|].
      assert (E : fst (Process.add_artifact P el) = Returned tt)
        by (destruct el; (reflexivity || discriminate K)).
      split; [exact E|].
      split; [now apply add_artifact_appends|].
      apply add_artifact_shape.
      destruct (Process.add_artifact P el); cbn in *. now subst.
    + right. split; [reflexivity|].
      destruct el; (reflexivity || discriminate K).
Qed.

(** Appending, not prepending: a second task goes after the first. *)
Example add_flow_object_order :
  map Element_id
      (Process.get_all_elements
         (snd (Process.add_flow_object Scenario.process_D
                 (ATask (Task.init "t9")))))
  = ["s1"; "t0"; "t9"; "f1"].
Proof. reflexivity. Qed.

(** X8. Lookup after a successful insertion ([add_flow_object],
    [add_connecting_object], [add_artifact] or [add_lane]). Looking up any
    other id gives what it gave before. Looking up the id of the inserted
    element finds an element with that id: the inserted one whenever the
    id was not found before, and otherwise possibly an older element that
    carries the same id. *)
Theorem process_lookup_after_insertion :
  forall (P P' : Process.t) (el : Element),
    Process.add_flow_object P el = (Returned tt, P')
    \/ Process.add_connecting_object P el = (Returned tt, P')
    \/ Process.add_artifact P el = (Returned tt, P')
    \/ (exists lane, el = ALane lane /\ P' = Process.add_lane P lane) ->
    (forall s, s <> Element_id el ->
               Process.get_element_by_id P' s = Process.get_element_by_id P s)
    /\ (exists e, Process.get_element_by_id P' (Element_id el) = Some e
                  /\ Element_id e = Element_id el)
    /\ (Process.get_element_by_id P (Element_id el) = None ->
        Process.get_element_by_id P' (Element_id el) = Some el).
Proof.
  intros P P' el H.
  destruct (successful_insertion_shape H) as (l1 & l2 & HP & HP').
  unfold Process.get_element_by_id. rewrite HP, HP'.
  destruct (scan_insert_found l1 l2 el) as (e' & Hs & Hid & Hnew).
  split; [|split].
  - intros s Hs'. apply scan_insert_other. congruence.
  - eauto.
  - intros Hnone. rewrite Hs. f_equal. auto.
Qed.

Lemma process_lookup_after_insertion_witness :
  Process.get_element_by_id
    (snd (Process.add_flow_object Scenario.process_D
            (ATask (Task.init "t9")))) "t9"
  = Some (ATask (Task.init "t9")).
Proof.
  apply (@process_lookup_after_insertion Scenario.process_D
           (snd (Process.add_flow_object Scenario.process_D
                   (ATask (Task.init "t9"))))
           (ATask (Task.init "t9")));
    [left; reflexivity | reflexivity].
Defined.

(** X9. A successful insertion adds exactly one element to
    [get_all_elements()], and when the ids of the process were pairwise
    distinct and the new id was not among them they are pairwise distinct
    afterwards. *)
Theorem process_insertion_keeps_ids_unique :
  forall (P P' : Process.t) (el : Element),
    Process.add_flow_object P el = (Returned tt, P')
    \/ Process.add_connecting_object P el = (Returned tt, P')
    \/ Process.add_artifact P el = (Returned tt, P')
    \/ (exists lane, el = ALane lane /\ P' = Process.add_lane P lane) ->
    List.length (Process.get_all_elements P')
      = S (List.length (Process.get_all_elements P))
    /\ Permutation (Process.get_all_elements P')
                   (el :: Process.get_all_elements P)
    /\ (NoDup (map Element_id (Process.get_all_elements P)) ->
        ~ In (Element_id el) (map Element_id (Process.get_all_elements P)) ->
        NoDup (map Element_id (Process.get_all_elements P'))).
Proof.
  intros P P' el H.
  destruct (successful_insertion_shape H) as (l1 & l2 & HP & HP').
  assert (Hperm : Permutation (Process.get_all_elements P')
                              (el :: Process.get_all_elements P)).
  { rewrite HP, HP'. symmetry. apply Permutation_middle. }
  split; [|split].
  - now rewrite (Permutation_length Hperm).
  - exact Hperm.
  - intros ND Hfresh.
    apply (Permutation_NoDup
             (l := map Element_id (el :: Process.get_all_elements P))).
    + symmetry. now apply Permutation_map.
    + cbn. now constructor.
Qed.

Lemma process_insertion_keeps_ids_unique_witness :
  NoDup (map Element_id
           (Process.get_all_elements
              (snd (Process.add_flow_object Scenario.process_D
                      (ATask (Task.init "t9")))))).
Proof.
  apply (@process_insertion_keeps_ids_unique Scenario.process_D
           (snd (Process.add_flow_object Scenario.process_D
                   (ATask (Task.init "t9"))))
           (ATask (Task.init "t9")));
    [left; reflexivity
    | cbn; repeat constructor; cbn; intuition discriminate
    | cbn; intuition discriminate].
Defined.

(** ** Counting *)

(** X10. The counts of [Process.count_elements] add up to the number of
    elements [get_all_elements()] returns (the total [__str__] prints),
    its keys are the eleven collection names whatever the process holds,
    and a successful insertion raises the total by exactly one. *)
Theorem process_counts_add_up :
  forall P : Process.t,
    Process.total_elements P = List.length (Process.get_all_elements P)
    /\ PyDict.keys (Process.count_elements P)
       = ["events"; "tasks"; "gateways"; "subprocesses"; "sequence_flows";
          "associations"; "data_objects"; "data_stores"; "groups";
          "text_annotations"; "lanes"]
    /\ (forall el P',
          Process.add_flow_object P el = (Returned tt, P')
          \/ Process.add_connecting_object P el = (Returned tt, P')
          \/ Process.add_artifact P el = (Returned tt, P')
          \/ (exists lane, el = ALane lane /\ P' = Process.add_lane P lane) ->
          Process.total_elements P' = S (Process.total_elements P)).
Proof.
  assert (Htotal : forall P,
            Process.total_elements P
            = List.length (Process.get_all_elements P)).
  { intros P. unfold Process.total_elements, Process.count_elements,
      Process.get_all_elements, PyDict.values.
    unfold list_sum. cbn [map snd fold_right].
    rewrite !length_app, !length_map. lia. }
  intros P. split; [apply Htotal|]. split; [reflexivity|].
  intros el P' H. rewrite !Htotal.
  destruct (successful_insertion_shape H) as (l1 & l2 & -> & ->).
  rewrite !length_app. cbn. lia.
Qed.

Lemma accumulate_into_labelled
    (p : Process.t) (n1 n2 n3 n4 n5 n6 n7 n8 n9 n10 n11 : nat) :
  BPMNDiagram.accumulate_counts
    (Closed.labelled n1 n2 n3 n4 n5 n6 n7 n8 n9 n10 n11)
    (Process.count_elements p)
  = Closed.labelled
      (n1 + List.length (Process.events p))
      (n2 + List.length (Process.tasks p))
      (n3 + List.length (Process.gateways p))
      (n4 + List.length (Process.subprocesses p))
      (n5 + List.length (Process.sequence_flows p))
      (n6 + List.length (Process.associations p))
      (n7 + List.length (Process.data_objects p))
      (n8 + List.length (Process.data_stores p))
      (n9 + List.length (Process.groups p))
      (n10 + List.length (Process.text_annotations p))
      (n11 + List.length (Process.lanes p)).
Proof. reflexivity. Qed.

Lemma accumulate_into_empty (p : Process.t) :
  BPMNDiagram.accumulate_counts [] (Process.count_elements p)
  = Closed.labelled
      (List.length (Process.events p))
      (List.length (Process.tasks p))
      (List.length (Process.gateways p))
      (List.length (Process.subprocesses p))
      (List.length (Process.sequence_flows p))
      (List.length (Process.associations p))
      (List.length (Process.data_objects p))
      (List.length (Process.data_stores p))
      (List.length (Process.groups p))
      (List.length (Process.text_annotations p))
      (List.length (Process.lanes p)).
Proof. reflexivity. Qed.

Lemma fold_counts_labelled (ps : list Process.t) :
  forall n1 n2 n3 n4 n5 n6 n7 n8 n9 n10 n11 : nat,
    fold_left
      (fun acc process =>
         BPMNDiagram.accumulate_counts acc (Process.count_elements process))
      ps (Closed.labelled n1 n2 n3 n4 n5 n6 n7 n8 n9 n10 n11)
    = Closed.labelled
        (n1 + Closed.total (fun p => List.length (Process.events p)) ps)
        (n2 + Closed.total (fun p => List.length (Process.tasks p)) ps)
        (n3 + Closed.total (fun p => List.length (Process.gateways p)) ps)
        (n4 + Closed.total (fun p => List.length (Process.subprocesses p)) ps)
        (n5 + Closed.total (fun p => List.length (Process.sequence_flows p)) ps)
        (n6 + Closed.total (fun p => List.length (Process.associations p)) ps)
        (n7 + Closed.total (fun p => List.length (Process.data_objects p)) ps)
        (n8 + Closed.total (fun p => List.length (Process.data_stores p)) ps)
        (n9 + Closed.total (fun p => List.length (Process.groups p)) ps)
        (n10 + Closed.total
                 (fun p => List.length (Process.text_annotations p)) ps)
        (n11 + Closed.total (fun p => List.length (Process.lanes p)) ps).
Proof.
  induction ps as [|p ps IH]; intros; cbn [fold_left].
  - unfold Closed.total, list_sum. cbn [map fold_right].
    now rewrite !Nat.add_0_r.
  - rewrite accumulate_into_labelled, IH.
    unfold Closed.total, list_sum. cbn [map fold_right].
    now rewrite !Nat.add_assoc.
Qed.

(** X11. [BPMNDiagram.count_all_elements] returns the five diagram-level
    counts followed, when the diagram has at least one process, by the
    eleven per-collection counts summed over its processes. A diagram
    without processes has none of the eleven keys (reading ["tasks"] from
    its result fails), and the diagram-level keys are never overwritten. *)
Theorem count_all_elements_closed_form :
  forall d : BPMNDiagram.t,
    BPMNDiagram.count_all_elements d
      = Closed.diagram_counts d
        ++ match BPMNDiagram.processes d with
           | [] => []
           | _ :: _ => Closed.summed_counts (BPMNDiagram.processes d)
           end
    /\ (BPMNDiagram.processes d = [] ->
        forall p k, In k (PyDict.keys (Process.count_elements p)) ->
                    PyDict.get (BPMNDiagram.count_all_elements d) k = None)
    /\ PyDict.get (BPMNDiagram.count_all_elements d) "processes"
       = Some (List.length (BPMNDiagram.processes d))
    /\ PyDict.get (BPMNDiagram.count_all_elements d) "pools"
       = Some (List.length (BPMNDiagram.pools d)).
Proof.
  intros d.
  assert (Hform : BPMNDiagram.count_all_elements d
                  = Closed.diagram_counts d
                    ++ match BPMNDiagram.processes d with
                       | [] => []
                       | _ :: _ => Closed.summed_counts (BPMNDiagram.processes d)
                       end).
  { unfold BPMNDiagram.count_all_elements. cbn zeta.
    unfold Closed.diagram_counts.
    destruct (BPMNDiagram.processes d) as [|p ps] eqn:E.
    - reflexivity.
    - cbn [fold_left]. rewrite accumulate_into_empty, fold_counts_labelled.
      reflexivity. }
  split; [exact Hform|]. rewrite Hform. split; [|split].
  - intros -> p k Hk. cbn in Hk.
    repeat (destruct Hk as [<- | Hk]; [reflexivity|]). destruct Hk.
  - reflexivity.
  - reflexivity.
Qed.

(** * Further properties of the validation rules *)

Lemma no_match_iff_not_exists {A : Type} (f : A -> bool) (l : list A) :
  (List.length (filter f l) =? 0)%nat = negb (existsb f l).
Proof.
  induction l as [|x l IH]; cbn; [reflexivity|].
  destruct (f x); cbn; [reflexivity | exact IH].
Qed.

Lemma start_rule_by_process (d : BPMNDiagram.t) :
  StartEventRule.validate StartEventRule.init d
  = flat_map Rules.start_findings (BPMNDiagram.processes d).
Proof.
  unfold StartEventRule.validate.
  rewrite for_each_appends with (g := Rules.start_findings); [reflexivity|].
  intros p acc. unfold Rules.start_findings.
  destruct (List.length (Process.get_start_events p)) as [|[|n]]; cbn;
    now rewrite ?app_nil_r.
Qed.

Lemma end_rule_by_process (d : BPMNDiagram.t) :
  EndEventRule.validate EndEventRule.init d
  = flat_map Rules.end_findings (BPMNDiagram.processes d).
Proof.
  unfold EndEventRule.validate.
  rewrite for_each_appends with (g := Rules.end_findings); [reflexivity|].
  intros p acc. unfold Rules.end_findings, Process.get_end_events, append_if.
  rewrite no_match_iff_not_exists.
  destruct (existsb Event.is_end_event (Process.events p)); cbn;
    now rewrite ?app_nil_r.
Qed.

Lemma no_incoming_iff (p : Process.t) (i : string) :
  (List.length (incoming_of p i) =? 0)%nat = negb (Spec.has_incoming p i).
Proof. apply no_match_iff_not_exists. Qed.

Lemma no_outgoing_iff (p : Process.t) (i : string) :
  (List.length (outgoing_of p i) =? 0)%nat = negb (Spec.has_outgoing p i).
Proof. apply no_match_iff_not_exists. Qed.

Lemma check_gateway_appends
    (p : Process.t) (g : Gateway.t) (acc : list ValidationResult.t) :
  GatewayRule.check_gateway GatewayRule.init p g acc
  = acc ++ Rules.gateway_findings p g.
Proof.
  unfold GatewayRule.check_gateway, Rules.gateway_findings, append_if,
    Gateway.is_diverging, Gateway.is_converging.
  rewrite no_incoming_iff, no_outgoing_iff.
  destruct (Spec.has_incoming p (Gateway.id g)),
           (Spec.has_outgoing p (Gateway.id g)),
           (Gateway.gateway_direction g);
    cbn [negb GatewayDirection_eqb andb];
    try destruct (List.length (outgoing_of p (Gateway.id g)) <? 2)%nat;
    try destruct (List.length (incoming_of p (Gateway.id g)) <? 2)%nat;
    cbn; rewrite <- ?app_assoc; cbn; now rewrite ?app_nil_r.
Qed.

Lemma gateway_rule_by_process (d : BPMNDiagram.t) :
  GatewayRule.validate GatewayRule.init d
  = flat_map (fun p => flat_map (Rules.gateway_findings p)
                                (Process.gateways p))
             (BPMNDiagram.processes d).
Proof.
  unfold GatewayRule.validate.
  rewrite for_each_appends
    with (g := fun p => flat_map (Rules.gateway_findings p)
                                 (Process.gateways p));
    [reflexivity|].
  intros p acc.
  rewrite for_each_appends with (g := Rules.gateway_findings p);
    [reflexivity|].
  intros g acc'. apply check_gateway_appends.
Qed.

Lemma flat_map_nil_iff {A B : Type} (f : A -> list B) (l : list A) :
  flat_map f l = [] <-> Forall (fun x => f x = []) l.
Proof.
  induction l as [|x l IH]; cbn.
  - split; [constructor | reflexivity].
  - split.
    + intros H. apply app_eq_nil in H as [H1 H2].
      constructor; [exact H1 | now apply IH].
    + intros H. inversion H as [|? ? H1 H2]; subst.
      rewrite H1. now apply IH.
Qed.

Lemma flat_map_at_most_one {A B : Type} (f : A -> list B) (l : list A) :
  (forall x, List.length (f x) <= 1) ->
  List.length (flat_map f l) <= List.length l.
Proof.
  intros H. induction l as [|x l IH]; cbn; [lia|].
  rewrite length_app. specialize (H x). lia.
Qed.

Lemma Forall_flat_map {A B : Type} (P : B -> Prop) (f : A -> list B)
    (l : list A) :
  (forall x, In x l -> Forall P (f x)) -> Forall P (flat_map f l).
Proof.
  intros H. induction l as [|x l IH]; cbn; [constructor|].
  apply Forall_app. split; [apply H; now left|].
  apply IH. intros y Hy. apply H. now right.
Qed.

(** X12. The start-event rule reports each process on its own and only
    through the number of its start events: none gives one error, two or
    more give one warning that prints the number, exactly one gives
    nothing. So the rule is silent exactly when every process has exactly
    one start event, and it never reports more findings than there are
    processes. *)
Theorem start_event_rule_counts_start_events :
  forall d : BPMNDiagram.t,
    StartEventRule.validate StartEventRule.init d
      = flat_map Rules.start_findings (BPMNDiagram.processes d)
    /\ (StartEventRule.validate StartEventRule.init d = []
        <-> Forall (fun p => List.length (Process.get_start_events p) = 1)
                   (BPMNDiagram.processes d))
    /\ List.length (StartEventRule.validate StartEventRule.init d)
       <= List.length (BPMNDiagram.processes d).
Proof.
  intros d. rewrite start_rule_by_process.
  split; [reflexivity|]. split.
  - rewrite flat_map_nil_iff, !Forall_forall.
    split; intros H p Hp; specialize (H p Hp); revert H;
      unfold Rules.start_findings;
      destruct (List.length (Process.get_start_events p)) as [|[|n]];
      (discriminate || reflexivity).
  - apply flat_map_at_most_one. intros p. unfold Rules.start_findings.
    destruct (List.length (Process.get_start_events p)) as [|[|n]]; cbn; lia.
Qed.

(** X13. The end-event rule reports one warning per process that has no
    end event and nothing else. Every finding it produces is a warning
    (the rule object's own severity, error, is never used), so this rule
    alone never makes validation fail; it is silent exactly when every
    process has an end event. *)
Theorem end_event_rule_only_warns :
  forall d : BPMNDiagram.t,
    EndEventRule.validate EndEventRule.init d
      = flat_map Rules.end_findings (BPMNDiagram.processes d)
    /\ ValidationRule.severity EndEventRule.init = ERROR
    /\ Forall (fun r => ValidationResult.severity r = WARNING)
              (EndEventRule.validate EndEventRule.init d)
    /\ (EndEventRule.validate EndEventRule.init d = []
        <-> Forall (fun p => exists e, In e (Process.events p)
                                       /\ Event.event_type e = END)
                   (BPMNDiagram.processes d)).
Proof.
  intros d. rewrite end_rule_by_process.
  split; [reflexivity|]. split; [reflexivity|]. split.
  - apply Forall_flat_map. intros p _. unfold Rules.end_findings.
    destruct (existsb Event.is_end_event (Process.events p));
      repeat constructor.
  - rewrite flat_map_nil_iff, !Forall_forall.
    split; intros H p Hp; specialize (H p Hp); revert H;
      unfold Rules.end_findings;
      destruct (existsb Event.is_end_event (Process.events p)) eqn:E.
    + intros _. apply existsb_exists in E as (e & He & Hty).
      exists e. split; [exact He|].
      unfold Event.is_end_event in Hty.
      destruct (Event.event_type e); (reflexivity || discriminate).
    + discriminate.
    + reflexivity.
    + intros (e & He & Hty). exfalso.
      assert (X : existsb Event.is_end_event (Process.events p) = true).
      { apply existsb_exists. exists e. split; [exact He|].
        unfold Event.is_end_event. now rewrite Hty. }
      congruence.
Qed.

Lemma has_incoming_length (p : Process.t) (i : string) :
  Spec.has_incoming p i = true <-> 1 <= List.length (incoming_of p i).
Proof.
  pose proof (no_incoming_iff p i) as H.
  destruct (Spec.has_incoming p i); cbn in H.
  - apply Nat.eqb_neq in H. split; [lia | reflexivity].
  - apply Nat.eqb_eq in H. split; [discriminate | lia].
Qed.

Lemma has_outgoing_length (p : Process.t) (i : string) :
  Spec.has_outgoing p i = true <-> 1 <= List.length (outgoing_of p i).
Proof.
  pose proof (no_outgoing_iff p i) as H.
  destruct (Spec.has_outgoing p i); cbn in H.
  - apply Nat.eqb_neq in H. split; [lia | reflexivity].
  - apply Nat.eqb_eq in H. split; [discriminate | lia].
Qed.

(** X14. The gateway rule looks at each gateway of each process on its
    own. A gateway gets no finding exactly when it has an incoming and an
    outgoing sequence flow and, if it is diverging, at least two outgoing
    ones, if it is converging, at least two incoming ones. A gateway whose
    direction is mixed or unspecified never gets a warning, and no gateway
    gets more than three findings. *)
Theorem gateway_rule_per_gateway :
  forall d : BPMNDiagram.t,
    GatewayRule.validate GatewayRule.init d
      = flat_map (fun p => flat_map (Rules.gateway_findings p)
                                    (Process.gateways p))
                 (BPMNDiagram.processes d)
    /\ (forall p g,
          Rules.gateway_findings p g = []
          <-> 1 <= List.length (incoming_of p (Gateway.id g))
              /\ 1 <= List.length (outgoing_of p (Gateway.id g))
              /\ (Gateway.gateway_direction g = diverging ->
                  2 <= List.length (outgoing_of p (Gateway.id g)))
              /\ (Gateway.gateway_direction g = converging ->
                  2 <= List.length (incoming_of p (Gateway.id g))))
    /\ (forall p g,
          Gateway.gateway_direction g = mixed
          \/ Gateway.gateway_direction g = unspecified ->
          Forall (fun r => ValidationResult.severity r = ERROR)
                 (Rules.gateway_findings p g))
    /\ (forall p g, List.length (Rules.gateway_findings p g) <= 3).
Proof.
  intros d. split; [apply gateway_rule_by_process|]. split; [|split].
  - intros p g. rewrite <- has_incoming_length, <- has_outgoing_length.
    unfold Rules.gateway_findings.
    destruct (Spec.has_incoming p (Gateway.id g)),
             (Spec.has_outgoing p (Gateway.id g)),
             (Gateway.gateway_direction g);
      try destruct (Nat.ltb_spec
                      (List.length (outgoing_of p (Gateway.id g))) 2);
      try destruct (Nat.ltb_spec
                      (List.length (incoming_of p (Gateway.id g))) 2);
      cbn; split;
      try discriminate; try reflexivity;
      try (intros (H1 & H2 & H3 & H4); try discriminate;
           try (specialize (H3 eq_refl); lia);
           try (specialize (H4 eq_refl); lia));
      try (intros _; repeat split; (reflexivity || discriminate || lia)).
  - intros p g [H | H]; unfold Rules.gateway_findings; rewrite H;
      destruct (Spec.has_incoming p (Gateway.id g)),
               (Spec.has_outgoing p (Gateway.id g));
      cbn; repeat constructor.
  - intros p g. unfold Rules.gateway_findings.
    destruct (Spec.has_incoming p (Gateway.id g)),
             (Spec.has_outgoing p (Gateway.id g)),
             (Gateway.gateway_direction g);
      try destruct (List.length (outgoing_of p (Gateway.id g)) <? 2)%nat;
      try destruct (List.length (incoming_of p (Gateway.id g)) <? 2)%nat;
      cbn; lia.
Qed.

(** * Further properties of the validator *)

Lemma run_rules_all_return
    (rs : list ValidationRule.t) (d : BPMNDiagram.t)
    (buffer : list ValidationResult.t) :
  (forall r, In r rs -> exists found, rule_validate r d = Returned found) ->
  BPMNValidator.run_rules rs d buffer
  = (Returned tt, buffer ++ flat_map (fun r => Rules.findings_of r d) rs).
Proof.
  revert buffer. induction rs as [|r rs IH]; intros buffer H; cbn.
  - now rewrite app_nil_r.
  - destruct (H r (or_introl eq_refl)) as (found & E).
    unfold Rules.findings_of at 1. rewrite E.
    rewrite IH; [now rewrite <- app_assoc|].
    intros r' Hr'. apply H. now right.
Qed.

Lemma run_rules_app
    (rs1 rs2 : list ValidationRule.t) (d : BPMNDiagram.t)
    (buffer : list ValidationResult.t) :
  BPMNValidator.run_rules (rs1 ++ rs2) d buffer
  = match BPMNValidator.run_rules rs1 d buffer with
    | (Returned _, buffer') => BPMNValidator.run_rules rs2 d buffer'
    | (Raised e, buffer') => (Raised e, buffer')
    end.
Proof.
  revert buffer. induction rs1 as [|r rs1 IH]; intros buffer; cbn.
  - reflexivity.
  - destruct (rule_validate r d); [apply IH | reflexivity].
Qed.

(** X15. [validate()] runs every rule, in list order, whatever the
    earlier rules found: when no rule raises, the buffer afterwards is the
    concatenation of the findings of all the rules, and the value returned
    is [True] exactly when that concatenation has no error. Findings that
    were in the buffer before the call are gone. *)
Theorem validate_runs_every_rule :
  forall v : BPMNValidator.t,
    (forall r, In r (BPMNValidator.rules v) ->
               exists found,
                 rule_validate r (BPMNValidator.diagram v) = Returned found) ->
    BPMNValidator.results (snd (BPMNValidator.validate v))
      = flat_map (fun r => Rules.findings_of r (BPMNValidator.diagram v))
                 (BPMNValidator.rules v)
    /\ fst (BPMNValidator.validate v)
       = Returned
           (negb (existsb BPMNValidator.is_error
                    (flat_map
                       (fun r => Rules.findings_of r (BPMNValidator.diagram v))
                       (BPMNValidator.rules v)))).
Proof.
  intros v H. unfold BPMNValidator.validate.
  rewrite run_rules_all_return by exact H. cbn. auto.
Qed.

Lemma validate_runs_every_rule_witness :
  List.length
    (BPMNValidator.results
       (snd (BPMNValidator.validate
               (BPMNValidator.add_rule
                  (BPMNValidator.init Scenario.diagram_C) Sample.veto))))
  = 5.
Proof.
  assert (H : forall r,
            In r (BPMNValidator.rules
                    (BPMNValidator.add_rule
                       (BPMNValidator.init Scenario.diagram_C) Sample.veto)) ->
            exists found,
              rule_validate r
                (BPMNValidator.diagram
                   (BPMNValidator.add_rule
                      (BPMNValidator.init Scenario.diagram_C) Sample.veto))
              = Returned found).
  { cbn. intros r [<- | [<- | [<- | [<- | [<- | []]]]]];
      eexists; reflexivity. }
  rewrite (proj1 (@validate_runs_every_rule _ H)). reflexivity.
Defined.

(** X16. When a rule raises, [validate()] raises the same exception at
    once: the rules after it do not run, and the buffer is left holding
    the findings of the rules before it (not the findings of an earlier
    call, and not an empty list). *)
Theorem validate_stops_at_raising_rule :
  forall (v : BPMNValidator.t) (before after : list ValidationRule.t)
         (bad : ValidationRule.t) (e : PyException),
    BPMNValidator.rules v = before ++ bad :: after ->
    (forall r, In r before ->
               exists found,
                 rule_validate r (BPMNValidator.diagram v) = Returned found) ->
    rule_validate bad (BPMNValidator.diagram v) = Raised e ->
    BPMNValidator.validate v
    = (Raised e,
       BPMNValidator.mk (BPMNValidator.diagram v) (BPMNValidator.rules v)
         (flat_map (fun r => Rules.findings_of r (BPMNValidator.diagram v))
                   before)).
Proof.
  intros v before after bad e Hrules Hbefore Hbad.
  unfold BPMNValidator.validate.
  rewrite Hrules at 1. rewrite run_rules_app.
  rewrite run_rules_all_return by exact Hbefore.
  cbn [BPMNValidator.run_rules app]. now rewrite Hbad.
Qed.

(** A rule object of the base class after the built-in rules: the call
    raises [NotImplementedError] and the four findings of the built-in
    rules stay in the buffer. *)
Lemma validate_stops_at_raising_rule_witness :
  fst (BPMNValidator.validate
         (BPMNValidator.add_rule
            (BPMNValidator.add_rule
               (BPMNValidator.init Scenario.diagram_C) Sample.abstract_rule)
            Sample.veto))
  = Raised NotImplementedError
  /\ List.length
       (BPMNValidator.results
          (snd (BPMNValidator.validate
                  (BPMNValidator.add_rule
                     (BPMNValidator.add_rule
                        (BPMNValidator.init Scenario.diagram_C)
                        Sample.abstract_rule)
                     Sample.veto))))
     = 4.
Proof.
  assert (H : forall r,
            In r (BPMNValidator.rules
                    (BPMNValidator.init Scenario.diagram_C)) ->
            exists found,
              rule_validate r Scenario.diagram_C = Returned found).
  { cbn. intros r [<- | [<- | [<- | [<- | []]]]]; eexists; reflexivity. }
  rewrite (@validate_stops_at_raising_rule
             (BPMNValidator.add_rule
                (BPMNValidator.add_rule
                   (BPMNValidator.init Scenario.diagram_C)
                   Sample.abstract_rule)
                Sample.veto)
             (BPMNValidator.rules (BPMNValidator.init Scenario.diagram_C))
             [Sample.veto] Sample.abstract_rule NotImplementedError
             eq_refl H eq_refl).
  split; reflexivity.
Defined.


(** ** Findings by severity and the report *)

Lemma severity_classes (r : ValidationResult.t) :
  (if BPMNValidator.is_error r then 1 else 0)
  + (if BPMNValidator.is_warning r then 1 else 0)
  + (if BPMNValidator.is_info r then 1 else 0) = 1.
Proof.
  unfold BPMNValidator.is_error, BPMNValidator.is_warning,
    BPMNValidator.is_info.
  now destruct (ValidationResult.severity r).
Qed.

Lemma filter_by_severity_length (l : list ValidationResult.t) :
  List.length (filter BPMNValidator.is_error l)
  + List.length (filter BPMNValidator.is_warning l)
  + List.length (filter BPMNValidator.is_info l)
  = List.length l.
Proof.
  induction l as [|r l IH]; cbn; [reflexivity|].
  pose proof (severity_classes r) as H.
  destruct (BPMNValidator.is_error r), (BPMNValidator.is_warning r),
    (BPMNValidator.is_info r); cbn in *; lia.
Qed.

(** X18. Every finding in the buffer is counted under exactly one
    severity: the numbers of errors, warnings and infos (the three summary
    lines of the report) add up to the number of findings (its "Total
    Issues" line), [get_errors()] and [get_warnings()] keep the order of
    the buffer, and [has_errors()] / [has_warnings()] hold exactly when
    the corresponding list is not empty. *)
Theorem findings_partition_by_severity :
  forall v : BPMNValidator.t,
    List.length (BPMNValidator.get_errors v)
    + List.length (BPMNValidator.get_warnings v)
    + List.length (filter BPMNValidator.is_info (BPMNValidator.results v))
    = List.length (BPMNValidator.results v)
    /\ (BPMNValidator.has_errors v = true
        <-> BPMNValidator.get_errors v <> [])
    /\ (BPMNValidator.has_warnings v = true
        <-> BPMNValidator.get_warnings v <> [])
    /\ (forall r, In r (BPMNValidator.get_errors v)
                  <-> In r (BPMNValidator.results v)
                      /\ ValidationResult.severity r = ERROR)
    /\ (forall r, In r (BPMNValidator.get_warnings v)
                  <-> In r (BPMNValidator.results v)
                      /\ ValidationResult.severity r = WARNING).
Proof.
  intros v. split; [apply filter_by_severity_length|].
  assert (Hex : forall (f : ValidationResult.t -> bool) l,
            existsb f l = true <-> filter f l <> []).
  { intros f l. induction l as [|r l IH]; cbn.
    - split; [discriminate | congruence].
    - destruct (f r); cbn; [split; [discriminate | reflexivity] | exact IH]. }
  split; [apply Hex|]. split; [apply Hex|]. split.
  - intros r. unfold BPMNValidator.get_errors. rewrite filter_In.
    unfold BPMNValidator.is_error. now rewrite ValidationSeverity_eqb_eq.
  - intros r. unfold BPMNValidator.get_warnings. rewrite filter_In.
    unfold BPMNValidator.is_warning. now rewrite ValidationSeverity_eqb_eq.
Qed.

Lemma report_group_cons (title : string) (group : list ValidationResult.t)
    (x : string) (l : list string) :
  BPMNValidator.report_group title group (x :: l)
  = x :: BPMNValidator.report_group title group l.
Proof.
  unfold BPMNValidator.report_group. now destruct (truthy group).
Qed.

Lemma report_group_keeps (title : string) (group : list ValidationResult.t)
    (l : list string) (x : string) :
  In x l -> In x (BPMNValidator.report_group title group l).
Proof.
  unfold BPMNValidator.report_group. destruct (truthy group); [|auto].
  intros H. apply in_app_iff. now left.
Qed.

Lemma report_group_lists (title : string) (group : list ValidationResult.t)
    (l : list string) (r : ValidationResult.t) :
  In r group ->
  In (BPMNValidator.report_item r)
     (BPMNValidator.report_group title group l).
Proof.
  unfold BPMNValidator.report_group. intros H.
  destruct group as [|g group]; [destruct H|]. cbn [truthy].
  apply in_app_iff. right. cbn [app]. right. right.
  apply in_app_iff. left. now apply in_map.
Qed.

Lemma report_lines_head (v : BPMNValidator.t) :
  exists rest,
    BPMNValidator.report_lines v = "BPMN Validation Report" :: rest.
Proof.
  unfold BPMNValidator.report_lines. cbn zeta.
  rewrite !report_group_cons. cbn [app]. eexists. reflexivity.
Qed.

(** X19. [get_validation_report] answers "Validation passed: No issues
    found." exactly when the buffer is empty. That is the case for a
    validator on which [validate()] was never called, whatever its
    diagram, and it is not the case as soon as there is one finding, a
    warning or info included. Otherwise every finding of the buffer has
    its line in the report. *)
Theorem report_passes_iff_buffer_empty :
  forall v : BPMNValidator.t,
    (BPMNValidator.get_validation_report v
       = "Validation passed: No issues found."
     <-> BPMNValidator.results v = [])
    /\ (forall d,
          BPMNValidator.get_validation_report (BPMNValidator.init d)
          = "Validation passed: No issues found.")
    /\ (forall r, In r (BPMNValidator.results v) ->
                  In (BPMNValidator.report_item r)
                     (BPMNValidator.report_lines v)).
Proof.
  intros v. split; [|split].
  - unfold BPMNValidator.get_validation_report.
    destruct (BPMNValidator.results v) as [|r l] eqn:E; cbn [truthy negb].
    + split; reflexivity.
    + split; [|discriminate].
      destruct (report_lines_head v) as (rest & ->).
      destruct rest; cbn; discriminate.
  - reflexivity.
  - intros r Hr. unfold BPMNValidator.report_lines. cbn zeta.
    apply in_app_iff. left.
    destruct (ValidationResult.severity r) eqn:S.
    + do 2 apply report_group_keeps. apply report_group_lists.
      apply filter_In. split; [exact Hr|].
      unfold BPMNValidator.is_error. now rewrite S.
    + apply report_group_keeps. apply report_group_lists.
      apply filter_In. split; [exact Hr|].
      unfold BPMNValidator.is_warning. now rewrite S.
    + apply report_group_lists.
      apply filter_In. split; [exact Hr|].
      unfold BPMNValidator.is_info. now rewrite S.
Qed.

(** The report of scenario B, which has no finding, and the first line of
    the report of scenario C. *)
Example report_examples :
  BPMNValidator.get_validation_report
    (snd (BPMNValidator.validate (BPMNValidator.init Sample.diagram_B)))
  = "Validation passed: No issues found."
  /\ hd "" (BPMNValidator.report_lines
              (snd (BPMNValidator.validate
                      (BPMNValidator.init Scenario.diagram_C))))
     = "BPMN Validation Report".
Proof. split; reflexivity. Qed.

(** ** What validation depends on *)

Lemma builtin_findings_by_process (d : BPMNDiagram.t) :
  Rules.builtin_findings d
  = flat_map Rules.start_findings (BPMNDiagram.processes d)
    ++ flat_map Rules.end_findings (BPMNDiagram.processes d)
    ++ flat_map Spec.connectivity_findings (BPMNDiagram.processes d)
    ++ flat_map (fun p => flat_map (Rules.gateway_findings p)
                                   (Process.gateways p))
                (BPMNDiagram.processes d).
Proof.
  unfold Rules.builtin_findings.
  now rewrite start_rule_by_process, end_rule_by_process,
    sequence_flow_rule_by_process, gateway_rule_by_process.
Qed.

Lemma validate_builtin_findings (d : BPMNDiagram.t) :
  BPMNValidator.validate (BPMNValidator.init d)
  = (Returned (negb (existsb BPMNValidator.is_error
                       (Rules.builtin_findings d))),
     BPMNValidator.mk d (BPMNValidator.rules (BPMNValidator.init d))
                      (Rules.builtin_findings d)).
Proof. now rewrite validate_builtin. Qed.

(** X20. The built-in validation reads nothing of a diagram but its list
    of processes: two diagrams with the same processes get the same
    outcome and the same findings, whatever their pools, message flows and
    global artifacts. A diagram without processes passes with no finding
    at all, also when its pools refer to processes. *)
Theorem validation_reads_only_processes :
  (forall d1 d2 : BPMNDiagram.t,
      BPMNDiagram.processes d1 = BPMNDiagram.processes d2 ->
      fst (BPMNValidator.validate (BPMNValidator.init d1))
      = fst (BPMNValidator.validate (BPMNValidator.init d2))
      /\ BPMNValidator.results
           (snd (BPMNValidator.validate (BPMNValidator.init d1)))
         = BPMNValidator.results
             (snd (BPMNValidator.validate (BPMNValidator.init d2))))
  /\ (forall d : BPMNDiagram.t,
        BPMNDiagram.processes d = [] ->
        fst (BPMNValidator.validate (BPMNValidator.init d)) = Returned true
        /\ BPMNValidator.results
             (snd (BPMNValidator.validate (BPMNValidator.init d))) = []).
Proof.
  split.
  - intros d1 d2 H. rewrite !validate_builtin_findings.
    cbn [fst snd BPMNValidator.results].
    rewrite !builtin_findings_by_process, H. auto.
  - intros d H. rewrite validate_builtin_findings.
    cbn [fst snd BPMNValidator.results].
    rewrite builtin_findings_by_process, H. auto.
Qed.

(** A collaboration of one pool that refers to a process and holds no
    process itself passes validation. *)
Lemma validation_reads_only_processes_witness :
  fst (BPMNValidator.validate
         (BPMNValidator.init
            (BPMNDiagram.init "d1" []
               [Pool.mk (BPMNElement.init POOL "pool1") true (Some "p1") []
                        None true])))
  = Returned true.
Proof.
  apply (proj2 validation_reads_only_processes). reflexivity.
Defined.

(** ** Sequence flows between unknown ids *)

Section DanglingFlow.
Variables (p : Process.t) (f : SequenceFlow.t).

Let p' : Process.t :=
  snd (Process.add_connecting_object p (ASequenceFlow f)).

Lemma incoming_after_flow (i : string) :
  SequenceFlow.target_ref f <> i -> incoming_of p' i = incoming_of p i.
Proof.
  intros H. unfold incoming_of. subst p'. cbn. rewrite filter_app. cbn.
  apply String.eqb_neq in H. rewrite H. apply app_nil_r.
Qed.

Lemma outgoing_after_flow (i : string) :
  SequenceFlow.source_ref f <> i -> outgoing_of p' i = outgoing_of p i.
Proof.
  intros H. unfold outgoing_of. subst p'. cbn. rewrite filter_app. cbn.
  apply String.eqb_neq in H. rewrite H. apply app_nil_r.
Qed.

Lemma has_incoming_after_flow (i : string) :
  SequenceFlow.target_ref f <> i ->
  Spec.has_incoming p' i = Spec.has_incoming p i.
Proof.
  intros H. unfold Spec.has_incoming. subst p'. cbn. rewrite existsb_app. cbn.
  apply String.eqb_neq in H. rewrite H. now rewrite !orb_false_r.
Qed.

Lemma has_outgoing_after_flow (i : string) :
  SequenceFlow.source_ref f <> i ->
  Spec.has_outgoing p' i = Spec.has_outgoing p i.
Proof.
  intros H. unfold Spec.has_outgoing. subst p'. cbn. rewrite existsb_app. cbn.
  apply String.eqb_neq in H. rewrite H. now rewrite !orb_false_r.
Qed.

Hypothesis Hdangling : Rules.dangling p f.

Lemma dangling_event (e : Event.t) :
  In e (Process.events p) ->
  SequenceFlow.source_ref f <> Event.id e
  /\ SequenceFlow.target_ref f <> Event.id e.
Proof.
  intros H. destruct (Hdangling (FEvent e)) as [H1 H2].
  - unfold Process.get_all_flow_objects. apply in_app_iff. left.
    now apply in_map.
  - cbn in *. split; congruence.
Qed.

Lemma dangling_task (x : Task.t) :
  In x (Process.tasks p) ->
  SequenceFlow.source_ref f <> Task.id x
  /\ SequenceFlow.target_ref f <> Task.id x.
Proof.
  intros H. destruct (Hdangling (FTask x)) as [H1 H2].
  - unfold Process.get_all_flow_objects. apply in_app_iff. right.
    apply in_app_iff. left. now apply in_map.
  - cbn in *. split; congruence.
Qed.

Lemma dangling_gateway (g : Gateway.t) :
  In g (Process.gateways p) ->
  SequenceFlow.source_ref f <> Gateway.id g
  /\ SequenceFlow.target_ref f <> Gateway.id g.
Proof.
  intros H. destruct (Hdangling (FGateway g)) as [H1 H2].
  - unfold Process.get_all_flow_objects. apply in_app_iff. right.
    apply in_app_iff. right. apply in_app_iff. left. now apply in_map.
  - cbn in *. split; congruence.
Qed.

Lemma flat_map_same_on {A B : Type} (g h : A -> list B) (l : list A) :
  (forall x, In x l -> g x = h x) -> flat_map g l = flat_map h l.
Proof.
  intros H. induction l as [|x l IH]; cbn; [reflexivity|].
  rewrite H by now left. rewrite IH; [reflexivity|].
  intros y Hy. apply H. now right.
Qed.

Lemma dangling_flow_findings :
  Rules.start_findings p' = Rules.start_findings p
  /\ Rules.end_findings p' = Rules.end_findings p
  /\ Spec.connectivity_findings p' = Spec.connectivity_findings p
  /\ flat_map (Rules.gateway_findings p') (Process.gateways p')
     = flat_map (Rules.gateway_findings p) (Process.gateways p).
Proof.
  split; [reflexivity|]. split; [reflexivity|]. split.
  - unfold Spec.connectivity_findings.
    replace (Process.events p') with (Process.events p) by reflexivity.
    replace (Process.tasks p') with (Process.tasks p) by reflexivity.
    f_equal; apply flat_map_same_on.
    + intros e He. destruct (dangling_event e He) as [Hs Ht].
      unfold Spec.event_findings.
      now rewrite has_incoming_after_flow, has_outgoing_after_flow.
    + intros x Hx. destruct (dangling_task x Hx) as [Hs Ht].
      unfold Spec.task_findings.
      now rewrite has_incoming_after_flow, has_outgoing_after_flow.
  - replace (Process.gateways p') with (Process.gateways p) by reflexivity.
    apply flat_map_same_on. intros g Hg.
    destruct (dangling_gateway g Hg) as [Hs Ht].
    unfold Rules.gateway_findings.
    now rewrite has_incoming_after_flow, has_outgoing_after_flow,
      incoming_after_flow, outgoing_after_flow.
Qed.
End DanglingFlow.

(** X21. A sequence flow whose [source_ref] and [target_ref] name no flow
    object of its process is accepted in silence: adding it with
    [add_connecting_object] changes neither the findings of the built-in
    rules nor the value [validate()] returns. No rule checks that the ends
    of a flow exist. *)
Theorem dangling_flow_not_reported :
  forall (d d' : BPMNDiagram.t) (before after : list Process.t)
         (p : Process.t) (f : SequenceFlow.t),
    BPMNDiagram.processes d = before ++ p :: after ->
    BPMNDiagram.processes d'
      = before
        ++ snd (Process.add_connecting_object p (ASequenceFlow f)) :: after ->
    Rules.dangling p f ->
    BPMNValidator.results
      (snd (BPMNValidator.validate (BPMNValidator.init d')))
    = BPMNValidator.results
        (snd (BPMNValidator.validate (BPMNValidator.init d)))
    /\ fst (BPMNValidator.validate (BPMNValidator.init d'))
       = fst (BPMNValidator.validate (BPMNValidator.init d)).
Proof.
  intros d d' before after p f Hd Hd' Hdang.
  destruct (dangling_flow_findings Hdang) as (H1 & H2 & H3 & H4).
  assert (E : Rules.builtin_findings d' = Rules.builtin_findings d).
  { rewrite !builtin_findings_by_process, Hd, Hd'.
    rewrite !flat_map_app. cbn [flat_map].
    now rewrite H1, H2, H3, H4. }
  rewrite !validate_builtin_findings. cbn [fst snd BPMNValidator.results].
  now rewrite E.
Qed.

Lemma dangling_flow_not_reported_witness :
  Rules.dangling Sample.process_B Sample.stray_flow
  /\ BPMNValidator.results
       (snd (BPMNValidator.validate
               (BPMNValidator.init
                  (BPMNDiagram.init "d1"
                     [snd (Process.add_connecting_object Sample.process_B
                             (ASequenceFlow Sample.stray_flow))] []))))
     = BPMNValidator.results
         (snd (BPMNValidator.validate (BPMNValidator.init Sample.diagram_B))).
Proof.
  assert (Hdang : Rules.dangling Sample.process_B Sample.stray_flow).
  { intros o. cbn. intros [<- | [<- | [<- | []]]]; cbn;
      split; discriminate. }
  split; [exact Hdang|].
  exact (proj1 (@dangling_flow_not_reported
                  Sample.diagram_B
                  (BPMNDiagram.init "d1"
                     [snd (Process.add_connecting_object Sample.process_B
                             (ASequenceFlow Sample.stray_flow))] [])
                  [] [] Sample.process_B Sample.stray_flow
                  eq_refl eq_refl Hdang)).
Defined.

(** ** The scenarios without findings and without flow objects *)

(** X22. A process that holds no event, task, gateway or sub-process gets
    exactly two findings, whatever else it holds: the error of the
    start-event rule and the warning of the end-event rule, both on the
    process. [validate()] returns [False] and [has_errors()] holds. *)
Theorem empty_process_findings :
  forall (d : BPMNDiagram.t) (p : Process.t),
    BPMNDiagram.processes d = [p] ->
    Process.events p = [] ->
    Process.tasks p = [] ->
    Process.gateways p = [] ->
    Process.subprocesses p = [] ->
    BPMNValidator.validate (BPMNValidator.init d)
    = (Returned false,
       BPMNValidator.mk d (BPMNValidator.rules (BPMNValidator.init d))
         [ValidationResult.mk ERROR (Some (Process.id p)) (Some "Process")
            "Process must have at least one start event" "start_event_rule";
          ValidationResult.mk WARNING (Some (Process.id p)) (Some "Process")
            "Process should have at least one end event" "end_event_rule"])
    /\ BPMNValidator.has_errors
         (snd (BPMNValidator.validate (BPMNValidator.init d))) = true.
Proof.
  intros d p Hd He Ht Hg Hs.
  assert (E : Rules.builtin_findings d
              = [ValidationResult.mk ERROR (Some (Process.id p))
                   (Some "Process")
                   "Process must have at least one start event"
                   "start_event_rule";
                 ValidationResult.mk WARNING (Some (Process.id p))
                   (Some "Process")
                   "Process should have at least one end event"
                   "end_event_rule"]).
  { rewrite builtin_findings_by_process, Hd. cbn [flat_map].
    unfold Rules.start_findings, Rules.end_findings,
      Spec.connectivity_findings, Process.get_start_events.
    now rewrite He, Ht, Hg. }
  rewrite validate_builtin_findings, E. split; reflexivity.
Qed.

Lemma empty_process_findings_witness :
  BPMNValidator.has_errors
    (snd (BPMNValidator.validate (BPMNValidator.init Sample.diagram_A)))
  = true.
Proof.
  exact (proj2 (@empty_process_findings Sample.diagram_A Sample.process_A
                  eq_refl eq_refl eq_refl eq_refl eq_refl)).
Defined.

(** X23. A process made of a start event, a task and an end event with
    pairwise distinct ids, linked by one sequence flow from the start
    event to the task and one from the task to the end event, passes:
    [validate()] returns [True] and the buffer is empty. *)
Theorem linear_process_passes :
  forall (d : BPMNDiagram.t) (p : Process.t) (s e : Event.t) (x : Task.t)
         (f1 f2 : SequenceFlow.t),
    BPMNDiagram.processes d = [p] ->
    Process.events p = [s; e] ->
    Process.tasks p = [x] ->
    Process.gateways p = [] ->
    Process.subprocesses p = [] ->
    Process.sequence_flows p = [f1; f2] ->
    Event.event_type s = START ->
    Event.event_type e = END ->
    SequenceFlow.source_ref f1 = Event.id s ->
    SequenceFlow.target_ref f1 = Task.id x ->
    SequenceFlow.source_ref f2 = Task.id x ->
    SequenceFlow.target_ref f2 = Event.id e ->
    Event.id s <> Task.id x ->
    Event.id e <> Task.id x ->
    Event.id s <> Event.id e ->
    BPMNValidator.validate (BPMNValidator.init d)
    = (Returned true,
       BPMNValidator.mk d (BPMNValidator.rules (BPMNValidator.init d)) []).
Proof.
  intros d p s e x f1 f2 Hd Hev Hta Hga Hsu Hsf Hs He
         Hs1 Ht1 Hs2 Ht2 Nsx Nex Nse.
  assert (E : Rules.builtin_findings d = []).
  { rewrite builtin_findings_by_process, Hd. cbn [flat_map].
    unfold Rules.start_findings, Rules.end_findings,
      Spec.connectivity_findings, Process.get_start_events,
      Spec.event_findings, Spec.task_findings,
      Spec.has_incoming, Spec.has_outgoing,
      Event.is_start_event, Event.is_end_event.
    rewrite Hev, Hta, Hga, Hsf. cbn [filter existsb flat_map].
    rewrite Hs, He, Hs1, Ht1, Hs2, Ht2. cbn [EventType_eqb].
    rewrite !String.eqb_refl.
    apply not_eq_sym in Nsx as Nxs. apply not_eq_sym in Nex as Nxe.
    apply not_eq_sym in Nse as Nes.
    apply String.eqb_neq in Nsx, Nex, Nse, Nxs, Nxe, Nes.
    rewrite ?Nsx, ?Nex, ?Nse, ?Nxs, ?Nxe, ?Nes. reflexivity. }
  now rewrite validate_builtin_findings, E.
Qed.

Lemma linear_process_passes_witness :
  fst (BPMNValidator.validate (BPMNValidator.init Sample.diagram_B))
  = Returned true.
Proof.
  rewrite (@linear_process_passes Sample.diagram_B Sample.process_B
             Scenario.s1 Sample.e1 Sample.t1
             (SequenceFlow.init "f1" "s1" "t1")
             (SequenceFlow.init "f2" "t1" "e1")
             eq_refl eq_refl eq_refl eq_refl eq_refl eq_refl eq_refl eq_refl
             eq_refl eq_refl eq_refl eq_refl);
    [reflexivity | discriminate | discriminate | discriminate].
Defined.

(** * Further properties of the diagram *)

Lemma get_all_processes_fold (pl : list Pool.t) (ps : list Process.t) :
  fold_left
    (fun all_processes pool =>
       match Pool.process_ref pool with
       | Some _ => all_processes
       | None => all_processes
       end) pl ps = ps.
Proof.
  induction pl as [|pool pl IH]; cbn; [reflexivity|].
  now destruct (Pool.process_ref pool).
Qed.

(** X24. [BPMNDiagram.get_all_processes] returns exactly the processes
    the diagram holds itself, in order: the [process_ref] of a pool is
    never resolved, so adding pools, with or without a reference, does not
    change the result, while [is_collaboration] holds exactly when there
    is a pool. *)
Theorem get_all_processes_ignores_pools :
  forall d : BPMNDiagram.t,
    BPMNDiagram.get_all_processes d = BPMNDiagram.processes d
    /\ (forall pool,
          BPMNDiagram.get_all_processes (BPMNDiagram.add_pool d pool)
          = BPMNDiagram.get_all_processes d)
    /\ (forall pool,
          BPMNDiagram.is_collaboration (BPMNDiagram.add_pool d pool) = true)
    /\ (BPMNDiagram.is_collaboration d = true <-> BPMNDiagram.pools d <> []).
Proof.
  intros d. unfold BPMNDiagram.get_all_processes.
  split; [apply get_all_processes_fold|]. split; [|split].
  - intros pool. now rewrite !get_all_processes_fold.
  - intros pool. unfold BPMNDiagram.is_collaboration.
    apply Nat.ltb_lt. cbn [BPMNDiagram.add_pool BPMNDiagram.with_members
                           BPMNDiagram.pools].
    rewrite length_app. cbn. lia.
  - unfold BPMNDiagram.is_collaboration.
    destruct (BPMNDiagram.pools d); cbn; split;
      (discriminate || congruence || reflexivity).
Qed.

(** X25. Lookup in a diagram after [add_process]. An id that one of the
    earlier processes resolves keeps its result. Any other id is resolved
    by the new process when it holds such an element, also when a pool, a
    lane, a message flow or a global artifact of the diagram carries the
    same id and was the result before; only when the new process does not
    hold the id is the old result kept. *)
Theorem diagram_lookup_after_add_process :
  forall (d : BPMNDiagram.t) (p : Process.t) (s : string),
    BPMNDiagram.get_element_by_id (BPMNDiagram.add_process d p) s
    = match BPMNDiagram.search_processes (BPMNDiagram.processes d) s with
      | Some e => Some e
      | None =>
          match Process.get_element_by_id p s with
          | Some e => Some e
          | None => BPMNDiagram.get_element_by_id d s
          end
      end.
Proof.
  intros d p s. unfold BPMNDiagram.get_element_by_id.
  cbn [BPMNDiagram.add_process BPMNDiagram.with_members
       BPMNDiagram.processes BPMNDiagram.pools BPMNDiagram.message_flows
       BPMNDiagram.global_data_stores BPMNDiagram.global_text_annotations].
  rewrite !search_processes_scan, flat_map_app, scan_app. cbn [flat_map].
  rewrite app_nil_r. unfold Process.get_element_by_id.
  destruct (Process.scan
              (flat_map Process.get_all_elements (BPMNDiagram.processes d)) s);
    cbn; [reflexivity|].
  now destruct (Process.scan (Process.get_all_elements p) s).
Qed.

(** A message flow [m1] is the result of looking up ["m1"]; after a
    process holding a task with the same id is added, that task is. *)
Example diagram_lookup_shadowed_by_new_process :
  BPMNDiagram.get_element_by_id
    (BPMNDiagram.add_message_flow (BPMNDiagram.init "d1" [] [])
       (MessageFlow.init "m1" "a" "b")) "m1"
  = Some (AMessageFlow (MessageFlow.init "m1" "a" "b"))
  /\ BPMNDiagram.get_element_by_id
       (BPMNDiagram.add_process
          (BPMNDiagram.add_message_flow (BPMNDiagram.init "d1" [] [])
             (MessageFlow.init "m1" "a" "b"))
          (Process.init "p1" [] [Task.init "m1"] [] [] [])) "m1"
     = Some (ATask (Task.init "m1")).
Proof. split; reflexivity. Qed.

(** ** Boundary events and the rules *)

(** X26. After [attach_to_activity] an event is a boundary event and no
    longer a start or an end event, whatever it was: the start-event and
    end-event rules do not count it, and the sequence-flow rule never
    reports it, whatever sequence flows touch it. A process whose only
    event was attached this way is reported as having no start event. *)
Theorem attached_event_invisible_to_rules :
  forall (e : Event.t) (a : string) (i : bool),
    let b := Event.attach_to_activity e a i in
    Event.is_boundary_event b = true
    /\ Event.is_start_event b = false
    /\ Event.is_end_event b = false
    /\ (forall p acc,
          SequenceFlowRule.check_flow_object SequenceFlowRule.init p
            (FEvent b) acc = acc)
    /\ (forall p, ~ In b (Process.get_start_events p)
                  /\ ~ In b (Process.get_end_events p))
    /\ (forall d p,
          BPMNDiagram.processes d = [p] ->
          Process.events p = [b] ->
          In (ValidationResult.mk ERROR (Some (Process.id p)) (Some "Process")
                "Process must have at least one start event"
                "start_event_rule")
             (BPMNValidator.results
                (snd (BPMNValidator.validate (BPMNValidator.init d))))).
Proof.
  intros e a i b. split; [reflexivity|]. split; [reflexivity|].
  split; [reflexivity|]. split; [|split].
  - intros p acc. rewrite check_flow_object_appends. apply app_nil_r.
  - intros p. unfold Process.get_start_events, Process.get_end_events.
    rewrite !filter_In. split; intros [_ H]; discriminate H.
  - intros d p Hd He. rewrite validate_builtin_findings.
    cbn [snd BPMNValidator.results].
    rewrite builtin_findings_by_process, Hd. cbn [flat_map].
    apply in_app_iff. left. apply in_app_iff. left.
    unfold Rules.start_findings, Process.get_start_events.
    rewrite He. cbn. now left.
Qed.

(** * Further properties of the artifacts *)

(** The two capacity setters of [DataStore] keep [capacity] and
    [is_unlimited] consistent: after [set_capacity] the store has a limit,
    after [set_unlimited_capacity] it has none and the capacity is
    cleared, whatever the store was; each undoes the other's effect on
    [has_capacity_limit]. A store that has a capacity while [is_unlimited]
    is still set (the state a constructor call with only [capacity]
    gives) has no limit. *)
Theorem data_store_capacity_flags :
  forall (s : DataStore.t) (c : Z),
    DataStore.has_capacity_limit (DataStore.set_capacity s c) = true
    /\ DataStore.capacity (DataStore.set_capacity s c) = Some c
    /\ DataStore.has_capacity_limit (DataStore.set_unlimited_capacity s)
       = false
    /\ DataStore.capacity (DataStore.set_unlimited_capacity s) = None
    /\ DataStore.set_unlimited_capacity (DataStore.set_capacity s c)
       = DataStore.set_unlimited_capacity s
    /\ DataStore.set_capacity (DataStore.set_unlimited_capacity s) c
       = DataStore.set_capacity s c
    /\ (DataStore.is_unlimited s = true ->
        DataStore.has_capacity_limit s = false)
    /\ (DataStore.has_capacity_limit s = true
        <-> DataStore.is_unlimited s = false
            /\ DataStore.capacity s <> None).
Proof.
  intros s c. repeat split; try reflexivity.
  - unfold DataStore.has_capacity_limit. now intros ->.
  - unfold DataStore.has_capacity_limit in H.
    now destruct (DataStore.is_unlimited s).
  - unfold DataStore.has_capacity_limit in H.
    destruct (DataStore.is_unlimited s), (DataStore.capacity s);
      (discriminate || congruence).
  - intros [H1 H2]. unfold DataStore.has_capacity_limit. rewrite H1.
    now destruct (DataStore.capacity s).
Qed.
